(** * EcoVerify-Prime: trust substrate, state merge, agent steps and routers

    A shallow embedding of the Python sources under
    [backend/src/ecoverify]:

    - [nhi/signing.py]      decision traces: sign / verify
    - [nhi/middleware.py]   Cite-Before-Act citation checks
    - [agents/state.py]     the state schema and its per-field reducers
    - [agents/edges.py]     routers
    - [agents/nodes/*.py]   the five step functions
    - [agents/nodes/finalize.py] the Mermaid proof-graph builder

    Python values are modelled by [pyval]; a [dict] is a [gmap string pyval]
    (Python compares dicts regardless of insertion order), a Python [float]
    is a binary64 [PrimFloat.float], a [str] is a [string] of UTF-8 bytes:
    [len] and slices count characters, not bytes ([str_len], [str_take]);
    changes of case cover the ASCII letters.
    A Python exception is [None] in an [option] result.

    Every dict the nodes build or read has string keys. The signing
    functions take any dict: [AnyDict] models them on dicts with keys of
    every type [json.dumps] accepts, where sorting the keys can raise. *)

From Stdlib Require Import ZArith NArith Ascii String PrimFloat FloatOps SpecFloat.
From Stdlib Require Strings.Byte.
From stdpp Require Import base option strings list gmap pretty.

Local Open Scope Z_scope.
Local Open Scope string_scope.

(* ===================================================================== *)
(** * Python values                                                       *)
(* ===================================================================== *)

#[warnings="-register-all"]
Inductive pyval : Type :=
  | PNone
  | PBool (b : bool)
  | PInt (z : Z)
  | PFloat (f : float)
  | PStr (s : string)
  | PList (l : list pyval)
  | PDict (d : gmap string pyval).

(** [dict[str, Any]] *)
Abbreviation pydict := (gmap string pyval).

(** [bytes] *)
Abbreviation bytes := (list Byte.byte).

#[global] Instance byte_eq_decision : EqDecision Byte.byte := Byte.byte_eq_dec.

(** Truth value testing ([if v:], [bool(v)], [all], [any]). *)
Definition py_truthy (v : pyval) : bool :=
  match v with
  | PNone => false
  | PBool b => b
  | PInt z => negb (z =? 0)%Z
  | PFloat f => negb (PrimFloat.eqb f 0%float)
  | PStr s => negb (String.eqb s EmptyString)
  | PList l => match l with [] => false | _ => true end
  | PDict d => negb (bool_decide (d = ∅))
  end.

(** [v == "literal"] for a value of unknown type: only a [str] with the same
    characters compares equal to a [str]. *)
Definition py_eq_str (v : pyval) (lit : string) : bool :=
  match v with
  | PStr s => String.eqb s lit
  | _ => false
  end.

(** [d.get(k, dflt)] *)
Definition dict_get (d : pydict) (k : string) (dflt : pyval) : pyval :=
  default dflt (d !! k).

(** [k in d] *)
Definition dict_has (d : pydict) (k : string) : bool :=
  bool_decide (is_Some (d !! k)).

(** A byte that continues a character of UTF-8 text. *)
Definition is_continuation (c : ascii) : bool :=
  let n := N_of_ascii c in ((128 <=? n) && (n <? 192))%N.

(** [len(s)] on a [str]: its characters, each one the byte that starts it
    and the bytes that continue it. *)
Fixpoint str_len (s : string) : nat :=
  match s with
  | EmptyString => O
  | String c s' => if is_continuation c then str_len s' else S (str_len s')
  end.

(** [s[:n]] on a [str]: its first [n] characters. *)
Fixpoint str_take (n : nat) (s : string) : string :=
  match s with
  | EmptyString => EmptyString
  | String c s' =>
      if is_continuation c then String c (str_take n s')
      else match n with
           | O => EmptyString
           | S n' => String c (str_take n' s')
           end
  end.

(** [sep.join(parts)] *)
Fixpoint str_join (sep : string) (parts : list string) : string :=
  match parts with
  | [] => EmptyString
  | [p] => p
  | p :: rest => p ++ sep ++ str_join sep rest
  end.

(** [s.upper()]; the model covers ASCII letters, other bytes are kept. *)
Definition ascii_upper (c : ascii) : ascii :=
  let n := N_of_ascii c in
  if ((97 <=? n) && (n <=? 122))%N then ascii_of_N (n - 32) else c.

Fixpoint str_upper (s : string) : string :=
  match s with
  | EmptyString => EmptyString
  | String c s' => String (ascii_upper c) (str_upper s')
  end.

(* ===================================================================== *)
(** * [base64.b64encode] / [base64.b64decode]                             *)
(* ===================================================================== *)

Module Base64.

Local Open Scope N_scope.

(** The standard alphabet: value of a sextet as a character. *)
Definition b64_char (v : N) : ascii :=
  if v <? 26 then ascii_of_N (v + 65)
  else if v <? 52 then ascii_of_N (v - 26 + 97)
  else if v <? 62 then ascii_of_N (v - 52 + 48)
  else if v =? 62 then "+"%char
  else "/"%char.

(** Inverse table ([table_a2b_base64]); [None] for a character outside the
    alphabet. *)
Definition b64_value (c : ascii) : option N :=
  let n := N_of_ascii c in
  if (65 <=? n) && (n <=? 90) then Some (n - 65)
  else if (97 <=? n) && (n <=? 122) then Some (n - 97 + 26)
  else if (48 <=? n) && (n <=? 57) then Some (n - 48 + 52)
  else if n =? 43 then Some 62
  else if n =? 47 then Some 63
  else None.

Definition byte_of_N (n : N) : Byte.byte :=
  default Byte.x00 (Byte.of_N (n mod 256)).

(** [binascii.b2a_base64] without the trailing newline, as used by
    [base64.b64encode]; the result is ASCII, so [.decode("ascii")] is the
    identity on it. *)
Fixpoint b64encode_chars (bs : bytes) : list ascii :=
  match bs with
  | [] => []
  | [b0] =>
      let n0 := Byte.to_N b0 in
      [b64_char (n0 / 4); b64_char ((n0 mod 4) * 16); "="%char; "="%char]
  | [b0; b1] =>
      let n0 := Byte.to_N b0 in
      let n1 := Byte.to_N b1 in
      [b64_char (n0 / 4); b64_char ((n0 mod 4) * 16 + n1 / 16);
       b64_char ((n1 mod 16) * 4); "="%char]
  | b0 :: b1 :: b2 :: rest =>
      let n0 := Byte.to_N b0 in
      let n1 := Byte.to_N b1 in
      let n2 := Byte.to_N b2 in
      b64_char (n0 / 4) :: b64_char ((n0 mod 4) * 16 + n1 / 16)
        :: b64_char ((n1 mod 16) * 4 + n2 / 64) :: b64_char (n2 mod 64)
        :: b64encode_chars rest
  end.

Definition b64encode (bs : bytes) : string :=
  string_of_list_ascii (b64encode_chars bs).

(** [binascii.a2b_base64] in its default, non-strict mode: characters
    outside the alphabet are skipped, a pad that completes a quad stops the
    scan, other pads are skipped, and leftover sextets at the end of the
    input are an error ([binascii.Error]). [out] is the output so far, in
    reverse. *)
Fixpoint a2b_base64 (s : list ascii) (quad_pos leftchar pads : N)
    (out : bytes) : option bytes :=
  match s with
  | [] => if quad_pos =? 0 then Some (rev out) else None
  | c :: s' =>
      if Ascii.eqb c "="%char then
        if (2 <=? quad_pos) && (4 <=? quad_pos + (pads + 1))
        then Some (rev out)
        else a2b_base64 s' quad_pos leftchar
               (if 2 <=? quad_pos then pads + 1 else pads) out
      else
        match b64_value c with
        | None => a2b_base64 s' quad_pos leftchar pads out
        | Some v =>
            if quad_pos =? 0 then a2b_base64 s' 1 v 0 out
            else if quad_pos =? 1 then
              a2b_base64 s' 2 (v mod 16) 0
                (byte_of_N (leftchar * 4 + v / 16) :: out)
            else if quad_pos =? 2 then
              a2b_base64 s' 3 (v mod 4) 0
                (byte_of_N (leftchar * 16 + v / 4) :: out)
            else
              a2b_base64 s' 0 0 0 (byte_of_N (leftchar * 64 + v) :: out)
        end
  end.

(** [base64.b64decode(s)] for a [str] argument: the string is first encoded
    as ASCII ([ValueError] on any other character), then handed to
    [a2b_base64]. *)
Definition is_ascii_char (c : ascii) : bool := N_of_ascii c <? 128.

Definition b64decode (s : string) : option bytes :=
  let cs := list_ascii_of_string s in
  if forallb is_ascii_char cs then a2b_base64 cs 0 0 0 [] else None.

(** The sextet [v] is written as an ASCII character other than the pad, and
    read back as [v]. *)
Definition sextet_ok (v : N) : bool :=
  match b64_value (b64_char v) with
  | Some w => w =? v
  | None => false
  end
  && negb (Ascii.eqb (b64_char v) "="%char)
  && is_ascii_char (b64_char v).

End Base64.

(* ===================================================================== *)
(** * Library operations the sources call                                 *)
(* ===================================================================== *)

(** Operations of the Python runtime that the sources use and that are kept
    abstract: JSON serialisation and number formatting. *)
Class PyLib := {
  (** [json.dumps(v, sort_keys=True, separators=(",", ":")).encode("utf-8")] *)
  json_dumps_canonical : pyval -> bytes;
  (** [repr] of a float or of a container, as an f-string prints it. *)
  py_repr : pyval -> string;
  (** [format(v, spec)] for a non-empty format spec such as [",.2f"];
      [None] when Python raises. *)
  py_format : string -> pyval -> option string;
}.

(** The [cryptography] and [hashlib] primitives. [ed25519_verify] is [true]
    when [public_key.verify(signature, data)] returns normally and [false]
    when it raises. *)
Class Crypto := {
  private_key : Type;
  public_key : Type;
  derive_public : private_key -> public_key;
  ed25519_sign : private_key -> bytes -> bytes;
  ed25519_verify : public_key -> bytes -> bytes -> bool;
  sha256_hexdigest : bytes -> string;
}.

(** A signature made with a private key verifies under its public key. *)
Definition ed25519_correct `{Crypto} : Prop :=
  forall (sk : private_key) (data : bytes),
    ed25519_verify (derive_public sk) (ed25519_sign sk data) data = true.

(** [str(v)], the conversion an f-string applies to [{v}]. *)
Definition py_str `{PyLib} (v : pyval) : string :=
  match v with
  | PStr s => s
  | PInt z => pretty z
  | PBool true => "True"
  | PBool false => "False"
  | PNone => "None"
  | _ => py_repr v
  end.

(** [s.encode("utf-8")]: a [str] is held as its UTF-8 bytes. *)
Definition utf8_encode (s : string) : bytes := list_byte_of_string s.

(** [dict(...)] literal. *)
Definition mkdict (kvs : list (string * pyval)) : pydict := list_to_map kvs.

Definition dquote : string := String (ascii_of_N 34) EmptyString.
Definition newline : string := String (ascii_of_N 10) EmptyString.

(* ===================================================================== *)
(** * nhi/signing.py                                                      *)
(* ===================================================================== *)

Record DecisionTrace := {
  agent_id : string;
  timestamp : string;
  decision : pydict;
  payload_hash : string;
  signature : string;
}.

Record CitationBlock := {
  source_id : string;
  data_hash : string;
  cb_timestamp : string;
  snippet : string;
}.

(** [trace.model_dump()] *)
Definition model_dump (t : DecisionTrace) : pydict :=
  mkdict [("agent_id", PStr (agent_id t));
          ("timestamp", PStr (timestamp t));
          ("decision", PDict (decision t));
          ("payload_hash", PStr (payload_hash t));
          ("signature", PStr (signature t))].

(** The functions of this section are [_canonicalise],
    [sign_decision_trace] and [verify_decision_trace] on a decision whose
    keys are strings at every level, as the nodes build it: there
    [json.dumps] cannot raise, and the functions are total. [AnyDict] below
    has them on every dict, with the [TypeError] of [json.dumps]. *)
Section Signing.
Context `{PyLib} `{Crypto}.

Definition _canonicalise (payload : pydict) : bytes :=
  json_dumps_canonical (PDict payload).

(** The dict both functions build:
    [{"agent_id": ..., "timestamp": ..., "decision": ...}]. *)
Definition signable (agent : string) (ts : string) (d : pydict) : pydict :=
  mkdict [("agent_id", PStr agent); ("timestamp", PStr ts);
          ("decision", PDict d)].

(** [sign_decision_trace]; [now] is the value the [timestamp] default
    factory reads from the clock. *)
Definition sign_decision_trace (now : string) (agent : string)
    (d : pydict) (sk : private_key) : DecisionTrace :=
  let canonical := _canonicalise (signable agent now d) in
  {| agent_id := agent;
     timestamp := now;
     decision := d;
     payload_hash := sha256_hexdigest canonical;
     signature := Base64.b64encode (ed25519_sign sk canonical) |}.

(** [verify_decision_trace]: the hash is compared first; inside the [try],
    a failed decode or a rejected signature is caught and gives [False]. *)
Definition verify_decision_trace (trace : DecisionTrace) (pk : public_key)
    : bool :=
  let canonical :=
    _canonicalise (signable (agent_id trace) (timestamp trace)
                     (decision trace)) in
  let expected_hash := sha256_hexdigest canonical in
  if negb (String.eqb expected_hash (payload_hash trace)) then false
  else
    match Base64.b64decode (signature trace) with
    | Some sig_bytes => ed25519_verify pk sig_bytes canonical
    | None => false
    end.

End Signing.

(* ===================================================================== *)
(** * nhi/signing.py on a decision that is any dict                       *)
(* ===================================================================== *)

Module AnyDict.

(** A dict key that [json.dumps] accepts. *)
Inductive pykey :=
  | KStr (s : string)
  | KInt (z : Z)
  | KFloat (f : float)
  | KBool (b : bool)
  | KNone.

(** A Python object: a value whose dicts have string keys at every level
    ([Val]), or a list or a dict above such values. [Map] lists the items of
    a dict in insertion order; its keys are pairwise different. *)
#[warnings="-register-all"]
Inductive pyobj :=
  | Val (v : pyval)
  | Seq (l : list pyobj)
  | Map (items : list (pykey * pyobj)).

Definition is_str (k : pykey) : bool :=
  match k with KStr _ => true | _ => false end.

(** [int], [float] and [bool] are ordered among themselves. *)
Definition is_number (k : pykey) : bool :=
  match k with KInt _ | KFloat _ | KBool _ => true | _ => false end.

(** [sorted(d.items())] returns: a single item is compared with nothing;
    otherwise the keys are compared with [<], which accepts two strings or
    two numbers and raises [TypeError] on a string and a number, and on
    [None] and anything. *)
Definition keys_sortable (keys : list pykey) : bool :=
  match keys with
  | [] | [_] => true
  | _ => forallb is_str keys || forallb is_number keys
  end.

(** [json.dumps(o, sort_keys=True)] returns: it sorts the items of every
    dict in [o]. *)
Fixpoint sortable (o : pyobj) : bool :=
  match o with
  | Val _ => true
  | Seq l => forallb sortable l
  | Map items =>
      keys_sortable (map fst items)
      && forallb (fun item => sortable item.2) items
  end.

(** The [pyval] an object is, when the keys of its dicts are strings. *)
Fixpoint as_val (o : pyobj) : option pyval :=
  match o with
  | Val v => Some v
  | Seq l => PList <$> mapM as_val l
  | Map items =>
      kvs ← mapM (fun item =>
                    match item.1 with
                    | KStr k => v ← as_val item.2; Some (k, v)
                    | _ => None
                    end) items;
      if bool_decide (NoDup kvs.*1) then Some (PDict (list_to_map kvs))
      else None
  end.

(** The serialiser of [_canonicalise]. *)
Class JsonSorted := {
  (** [json.dumps(o, sort_keys=True, separators=(",", ":")).encode("utf-8")]
      when it returns *)
  dumps_sorted : pyobj -> bytes;
}.

Record DecisionTrace := {
  agent_id : string;
  timestamp : string;
  decision : pyobj;
  payload_hash : string;
  signature : string;
}.

(** [isinstance(o, dict)]: what the field [decision: dict] accepts. *)
Definition is_dict (o : pyobj) : bool :=
  match o with
  | Val (PDict _) | Map _ => true
  | _ => false
  end.

Section Signing.
Context `{JsonSorted} `{Crypto}.

(** [None] is the [TypeError] of [json.dumps]. *)
Definition _canonicalise (payload : pyobj) : option bytes :=
  if sortable payload then Some (dumps_sorted payload) else None.

(** [{"agent_id": ..., "timestamp": ..., "decision": ...}] *)
Definition signable (agent ts : string) (d : pyobj) : pyobj :=
  Map [(KStr "agent_id", Val (PStr agent)); (KStr "timestamp", Val (PStr ts));
       (KStr "decision", d)].

(** [sign_decision_trace]: [None] when [DecisionTrace(...)] rejects a
    decision that is not a dict, or when [_canonicalise] raises. *)
Definition sign_decision_trace (now : string) (agent : string)
    (d : pyobj) (sk : private_key) : option DecisionTrace :=
  if is_dict d then
    canonical ← _canonicalise (signable agent now d);
    Some {| agent_id := agent;
            timestamp := now;
            decision := d;
            payload_hash := sha256_hexdigest canonical;
            signature := Base64.b64encode (ed25519_sign sk canonical) |}
  else None.

(** [verify_decision_trace]: the payload is serialised before the [try], so
    the [TypeError] of [json.dumps] leaves the function ([None]); inside the
    [try], a failed decode or a rejected signature gives [False]. *)
Definition verify_decision_trace (trace : DecisionTrace) (pk : public_key)
    : option bool :=
  canonical ← _canonicalise (signable (agent_id trace) (timestamp trace)
                               (decision trace));
  let expected_hash := sha256_hexdigest canonical in
  if negb (String.eqb expected_hash (payload_hash trace)) then Some false
  else
    Some match Base64.b64decode (signature trace) with
         | Some sig_bytes => ed25519_verify pk sig_bytes canonical
         | None => false
         end.

End Signing.

End AnyDict.

(** On an object that is a [pyval], the serialiser is the one of
    [PyLib]. *)
Definition dumps_agree `{PyLib} `{AnyDict.JsonSorted} : Prop :=
  forall (o : AnyDict.pyobj) (v : pyval),
    AnyDict.as_val o = Some v ->
    AnyDict.dumps_sorted o = json_dumps_canonical v.

(** [json.dumps] writes an [int] key as its decimal text: the payloads with
    the decisions [{z: v}] and [{str(z): v}] have the same text. *)
Definition int_key_as_text `{AnyDict.JsonSorted} : Prop :=
  forall (agent ts : string) (z : Z) (v : pyval),
    AnyDict.dumps_sorted
      (AnyDict.signable agent ts
         (AnyDict.Map [(AnyDict.KInt z, AnyDict.Val v)]))
    = AnyDict.dumps_sorted
        (AnyDict.signable agent ts (AnyDict.Val (PDict {[pretty z := v]}))).

(* ===================================================================== *)
(** * nhi/middleware.py                                                   *)
(* ===================================================================== *)

Section Middleware.
Context `{PyLib} `{Crypto}.

(** [cite_data_source]; [now] is the clock reading. *)
Definition cite_data_source (now : string) (source : string) (data : pyval)
    (snip : string) : CitationBlock :=
  let raw :=
    match data with
    | PDict _ | PList _ => json_dumps_canonical data
    | _ => utf8_encode (py_str data)
    end in
  {| source_id := source;
     data_hash := sha256_hexdigest raw;
     cb_timestamp := now;
     snippet := if String.eqb snip EmptyString then EmptyString
                else str_take 200 snip |}.

(** [verify_citation_against_data] *)
Definition verify_citation_against_data (c : CitationBlock) (data : pyval)
    : bool :=
  let raw :=
    match data with
    | PDict _ | PList _ => json_dumps_canonical data
    | _ => utf8_encode (py_str data)
    end in
  String.eqb (sha256_hexdigest raw) (data_hash c).

End Middleware.

(** The body of the [for c in citations] loop of
    [verify_citations_present]. *)
Fixpoint citations_loop (citations : list CitationBlock) : bool :=
  match citations with
  | [] => true
  | c :: rest =>
      if String.eqb (data_hash c) EmptyString
         || negb (Nat.eqb (str_len (data_hash c)) 64)
      then false
      else citations_loop rest
  end.

Definition verify_citations_present (citations : list CitationBlock) : bool :=
  match citations with
  | [] => false
  | _ => citations_loop citations
  end.

(* ===================================================================== *)
(** * agents/state.py                                                     *)
(* ===================================================================== *)

(** A LangChain message. The nodes build [AIMessage(content=..., name=...)],
    which carries no id. *)
Record Message := {
  msg_role : string;
  msg_content : string;
  msg_name : option string;
  msg_id : option string;
}.

Definition AIMessage (content name : string) : Message :=
  {| msg_role := "ai"; msg_content := content; msg_name := Some name;
     msg_id := None |}.

(** [EcoVerifyState]. A replace field is [None] when the key is missing from
    the state dict; a field typed [... | None] holds [Some None] for the
    Python value [None]. A field with a reducer always holds a list. *)
Record EcoVerifyState := {
  messages : list Message;
  telemetry_data : option (option pydict);
  anomalies : option (list pydict);
  citations : option (list CitationBlock);
  decision_traces : list pydict;
  compliance_report : option (option pydict);
  simulation_result : option (option pydict);
  jira_tickets : option (list pydict);
  governor_approval : option (option bool);
  settlements : list pydict;
  risk_scores : list pydict;
  fhir_observations : list pydict;
  edutech_hints : list pydict;
  user_intent : option (option pydict);
  current_phase : option string;
  error_log : list string;
  iteration_count : option Z;
  ui_events : list pydict;
}.

(** The dict a node returns: each key is optional. *)
Record Delta := {
  d_messages : option (list Message);
  d_telemetry_data : option (option pydict);
  d_anomalies : option (list pydict);
  d_citations : option (list CitationBlock);
  d_decision_traces : option (list pydict);
  d_compliance_report : option (option pydict);
  d_simulation_result : option (option pydict);
  d_jira_tickets : option (list pydict);
  d_governor_approval : option (option bool);
  d_settlements : option (list pydict);
  d_risk_scores : option (list pydict);
  d_fhir_observations : option (list pydict);
  d_edutech_hints : option (list pydict);
  d_user_intent : option (option pydict);
  d_current_phase : option string;
  d_error_log : option (list string);
  d_iteration_count : option Z;
  d_ui_events : option (list pydict);
}.

Definition empty_delta : Delta :=
  {| d_messages := None; d_telemetry_data := None; d_anomalies := None;
     d_citations := None; d_decision_traces := None;
     d_compliance_report := None; d_simulation_result := None;
     d_jira_tickets := None; d_governor_approval := None;
     d_settlements := None; d_risk_scores := None;
     d_fhir_observations := None; d_edutech_hints := None;
     d_user_intent := None; d_current_phase := None; d_error_log := None;
     d_iteration_count := None; d_ui_events := None |}.

(** ** The reducers named in the annotations *)

(** [operator.add] on two lists. *)
Definition operator_add {A} (old new : list A) : list A := old ++ new.

Definition set_msg_id (m : Message) (i : string) : Message :=
  {| msg_role := msg_role m; msg_content := msg_content m;
     msg_name := msg_name m; msg_id := Some i |}.

(** [add_messages] gives every message without an id a fresh [uuid4];
    [uuid4 n] is the n-th identifier drawn during the call. *)
Fixpoint assign_ids (uuid4 : nat -> string) (n : nat) (ms : list Message)
    : list Message * nat :=
  match ms with
  | [] => ([], n)
  | m :: rest =>
      match msg_id m with
      | Some _ =>
          let '(r, n') := assign_ids uuid4 n rest in (m :: r, n')
      | None =>
          let '(r, n') := assign_ids uuid4 (S n) rest in
          (set_msg_id m (uuid4 n) :: r, n')
      end
  end.

(** Position of the last message of [ms] whose id is [i]
    (the [{m.id: idx}] index of [add_messages]). *)
Fixpoint index_by_id (i : string) (ms : list Message) (pos : nat)
    (found : option nat) : option nat :=
  match ms with
  | [] => found
  | m :: rest =>
      index_by_id i rest (S pos)
        (if bool_decide (msg_id m = Some i) then Some pos else found)
  end.

(** One turn of the merge loop: a message whose id is already present
    replaces the message at that position, any other message is appended. *)
Definition upsert (merged : list Message) (m : Message) : list Message :=
  match msg_id m with
  | Some i =>
      match index_by_id i merged 0 None with
      | Some k => <[k := m]> merged
      | None => merged ++ [m]
      end
  | None => merged ++ [m]
  end.

(** [langgraph.graph.message.add_messages] on message objects
    ([RemoveMessage] is not part of the model: no node emits one). *)
Definition add_messages (uuid4 : nat -> string) (left right : list Message)
    : list Message :=
  let '(left', n) := assign_ids uuid4 0 left in
  let '(right', _) := assign_ids uuid4 n right in
  foldl upsert left' right'.

(** ** Applying a node's return value to the state *)

Definition replace_with {A} (old new : option A) : option A :=
  match new with
  | Some v => Some v
  | None => old
  end.

Definition append_with {A} (old : list A) (new : option (list A)) : list A :=
  match new with
  | Some l => operator_add old l
  | None => old
  end.

(** The update LangGraph performs after a node returns: a key with a reducer
    is combined with the old value, any other key replaces it, a key the
    node did not return is left alone. *)
Definition merge (uuid4 : nat -> string) (s : EcoVerifyState) (d : Delta)
    : EcoVerifyState :=
  {| messages :=
       match d_messages d with
       | Some ms => add_messages uuid4 (messages s) ms
       | None => messages s
       end;
     telemetry_data := replace_with (telemetry_data s) (d_telemetry_data d);
     anomalies := replace_with (anomalies s) (d_anomalies d);
     citations := replace_with (citations s) (d_citations d);
     decision_traces := append_with (decision_traces s) (d_decision_traces d);
     compliance_report :=
       replace_with (compliance_report s) (d_compliance_report d);
     simulation_result :=
       replace_with (simulation_result s) (d_simulation_result d);
     jira_tickets := replace_with (jira_tickets s) (d_jira_tickets d);
     governor_approval :=
       replace_with (governor_approval s) (d_governor_approval d);
     settlements := append_with (settlements s) (d_settlements d);
     risk_scores := append_with (risk_scores s) (d_risk_scores d);
     fhir_observations :=
       append_with (fhir_observations s) (d_fhir_observations d);
     edutech_hints := append_with (edutech_hints s) (d_edutech_hints d);
     user_intent := replace_with (user_intent s) (d_user_intent d);
     current_phase := replace_with (current_phase s) (d_current_phase d);
     error_log := append_with (error_log s) (d_error_log d);
     iteration_count :=
       replace_with (iteration_count s) (d_iteration_count d);
     ui_events := append_with (ui_events s) (d_ui_events d) |}.

(** [state.get(key, [])] for a list-valued replace field. *)
Definition get_list {A} (field : option (list A)) : list A := default [] field.

(** [state.get(key, {})] for a field typed [dict | None]: the default only
    applies when the key is missing; a stored [None] is returned as is. *)
Definition get_dict_or_none (field : option (option pydict))
    : option pydict :=
  match field with
  | None => Some ∅
  | Some v => v
  end.

(** The state of [api/routes.py] at the start of a run. *)
Definition initial_state : EcoVerifyState :=
  {| messages := []; telemetry_data := Some None; anomalies := Some [];
     citations := Some []; decision_traces := [];
     compliance_report := Some None; simulation_result := Some None;
     jira_tickets := Some []; governor_approval := Some None;
     settlements := []; risk_scores := []; fhir_observations := [];
     edutech_hints := []; user_intent := Some None;
     current_phase := Some "starting"; error_log := [];
     iteration_count := Some 0; ui_events := [] |}.

(* ===================================================================== *)
(** * Python numbers                                                      *)
(* ===================================================================== *)

Module PyNum.

Local Open Scope Z_scope.

(** Nearest integer to [a / b] for [0 <= a], [0 < b], ties to even. *)
Definition div_half_even (a b : Z) : Z :=
  let q := a / b in
  let r := a mod b in
  if 2 * r <? b then q
  else if b <? 2 * r then q + 1
  else if Z.even q then q else q + 1.

(** [round(x, ndigits)] on a float, [0 <= ndigits]: the decimal with
    [ndigits] fractional digits nearest to the exact value of [x] (ties to
    even), converted back to the nearest float. *)
Definition py_round (ndigits : nat) (x : float) : float :=
  match Prim2SF x with
  | S754_finite sgn m e =>
      if 0 <=? e then x
      else
        let p := 10 ^ Z.of_nat ndigits in
        let n := div_half_even (Z.pos m * p) (2 ^ (- e)) in
        match n with
        | Z.pos np =>
            SF2Prim (SFdiv prec emax (S754_finite sgn np 0)
                       (S754_finite false (Z.to_pos p) 0))
        | _ => if sgn then (-0)%float else 0%float
        end
  | _ => x
  end.

(** [float(z)] for an [int], correctly rounded. *)
Definition float_of_Z (z : Z) : float :=
  SF2Prim (binary_normalize prec emax z 0 false).

(** [max(x, 1)] with a float first argument: the second argument wins only
    when it is strictly greater. The int [1] then divides as [1.0]. *)
Definition max_with_one (x : float) : float :=
  if PrimFloat.ltb x 1%float then 1%float else x.

(** A value used as a number: [float], [int] or [bool]. An [int] whose
    nearest float is infinite raises [OverflowError]. *)
Definition as_float (v : pyval) : option float :=
  match v with
  | PFloat f => Some f
  | PInt z =>
      let f := float_of_Z z in
      if PrimFloat.is_infinity f then None else Some f
  | PBool b => Some (if b then 1%float else 0%float)
  | _ => None
  end.

(** [v >= k] and [v < k] against an int literal; [None] is [TypeError]. *)
Definition py_ge (v : pyval) (k : Z) : option bool :=
  match v with
  | PInt z => Some (k <=? z)
  | PBool b => Some (k <=? (if b then 1 else 0))
  | PFloat f => Some (PrimFloat.leb (float_of_Z k) f)
  | _ => None
  end.

Definition py_lt (v : pyval) (k : Z) : option bool :=
  match v with
  | PInt z => Some (z <? k)
  | PBool b => Some ((if b then 1 else 0) <? k)
  | PFloat f => Some (PrimFloat.ltb f (float_of_Z k))
  | _ => None
  end.

End PyNum.

(* ===================================================================== *)
(** * What a node reads from outside the state                            *)
(* ===================================================================== *)

(** Simulated telemetry ([mcp/tools/bms.py]): the [summary] dicts. *)
Record EnergySummary := {
  avg_kwh : float;
  peak_kwh : float;
  e_anomaly_count : Z;
  total_kwh : float;
  e_hours_sampled : Z;
}.

Record WaterSummary := {
  avg_gallons : float;
  peak_gallons : float;
  w_anomaly_count : Z;
  total_gallons : float;
  w_hours_sampled : Z;
}.

Record EnergyTelemetry := {
  e_building_id : string;
  e_readings : list pyval;
  e_summary : EnergySummary;
}.

Record WaterTelemetry := {
  w_building_id : string;
  w_readings : list pyval;
  w_summary : WaterSummary;
}.

Definition energy_summary_dict (s : EnergySummary) : pydict :=
  mkdict [("avg_kwh", PFloat (avg_kwh s)); ("peak_kwh", PFloat (peak_kwh s));
          ("anomaly_count", PInt (e_anomaly_count s));
          ("total_kwh", PFloat (total_kwh s));
          ("hours_sampled", PInt (e_hours_sampled s))].

Definition water_summary_dict (s : WaterSummary) : pydict :=
  mkdict [("avg_gallons", PFloat (avg_gallons s));
          ("peak_gallons", PFloat (peak_gallons s));
          ("anomaly_count", PInt (w_anomaly_count s));
          ("total_gallons", PFloat (total_gallons s));
          ("hours_sampled", PInt (w_hours_sampled s))].

Definition energy_dict (t : EnergyTelemetry) : pydict :=
  mkdict [("building_id", PStr (e_building_id t));
          ("readings", PList (e_readings t));
          ("summary", PDict (energy_summary_dict (e_summary t)))].

Definition water_dict (t : WaterTelemetry) : pydict :=
  mkdict [("building_id", PStr (w_building_id t));
          ("readings", PList (w_readings t));
          ("summary", PDict (water_summary_dict (w_summary t)))].

(** Everything a node obtains from the clock, the key store and the adapters
    during one run. The adapters are collaborators outside the core; a
    best-effort block of [finalize_node] is represented by the value it
    leaves in its variable (the initial one when the block is skipped). *)
Class NodeEnv `{Crypto} := {
  (** the k-th reading of [datetime.now(timezone.utc).isoformat()] *)
  clock : nat -> string;
  (** [load_private_key(agent)], or [generate_agent_keypair(agent)] when the
      key file is missing *)
  agent_key : string -> private_key;
  (** BMS adapter *)
  get_energy_telemetry : string -> Z -> EnergyTelemetry;
  get_water_telemetry : string -> Z -> WaterTelemetry;
  (** LLM enrichment of the prompt: the stripped answer, or [None] when the
      LLM is disabled, fails or answers nothing *)
  llm_invoke : string -> option string;
  (** regulatory adapter: the [articles] of the answer to a keyword query,
      and the compliance check, [None] when it raises *)
  query_eu_ai_act : string -> list pydict;
  check_compliance_vector : string -> pyval -> option pydict;
  (** [_compute_roi] (float arithmetic with [**]; [None] when an anomaly
      has no [type]), [_generate_3d_scene] (random) and the ticket adapter:
      their results are carried, not inspected *)
  _compute_roi : list pydict -> float -> option pydict;
  _generate_3d_scene : list pydict -> pydict;
  create_maintenance_ticket : string -> string -> string -> pyval -> pydict;
  (** the best-effort blocks of [finalize_node] *)
  settlement_block : EcoVerifyState -> list pydict;
  risk_block : EcoVerifyState -> list pydict;
  edutech_block : EcoVerifyState -> list pydict;
  fhir_block : EcoVerifyState -> pydict * list pydict;
  fintech_block : EcoVerifyState -> list pydict -> list pydict;
}.

(** [d[k]]: [None] is [KeyError]. *)
Definition dict_index (d : pydict) (k : string) : option pyval := d !! k.

(** A [neural_feed] event. *)
Definition neural_feed (agent message severity : pyval) (ts : string)
    : pydict :=
  mkdict [("type", PStr "neural_feed"); ("agent", agent);
          ("message", message); ("severity", severity);
          ("timestamp", PStr ts)].

(* ===================================================================== *)
(** * agents/nodes/jurist.py                                              *)
(* ===================================================================== *)

Section Jurist.
Context `{PyLib} `{NodeEnv}.

(** [[a.get("section", "") for a in result.get("articles", [])[:n]]] *)
Definition sections_of (articles : list pydict) (n : nat) : list pyval :=
  map (fun a => dict_get a "section" (PStr EmptyString)) (take n articles).

(** One turn of the [for anomaly in anomalies] loop: the anomaly with the
    adapter's verdict on it. *)
Definition evaluate_anomaly (anomaly : pydict) : option (pydict * pydict) :=
  ty ← dict_index anomaly "type";
  let action_desc :=
    "Autonomous detection of " ++ py_str ty ++ " anomaly in building "
    ++ py_str (dict_get anomaly "building_id" (PStr "unknown")) ++ ": "
    ++ py_str (dict_get anomaly "metric" (PStr "N/A")) in
  check ← check_compliance_vector action_desc
             (dict_get anomaly "severity" (PStr "high"));
  Some (anomaly, check).

Definition finding (articles_referenced : list pyval)
    (ac : pydict * pydict) : pyval :=
  PDict (mkdict [("anomaly", PDict ac.1); ("compliance", PDict ac.2);
                 ("articles_referenced", PList articles_referenced)]).

Definition jurist_node (state : EcoVerifyState) : option Delta :=
  let now_iso := clock 0 in
  let citations := get_list (citations state) in
  if negb (verify_citations_present citations) then
    Some
      {| d_current_phase := Some "citation_failure";
         d_error_log :=
           Some ["JURIST: Cite-Before-Act violation — no valid citations from VANGUARD."];
         d_ui_events :=
           Some [neural_feed (PStr "JURIST")
                   (PStr "⚠ Citation verification FAILED — routing back to VANGUARD for self-correction.")
                   (PStr "high") now_iso];
         d_compliance_report := Some None;
         d_messages :=
           Some [AIMessage
                   "[JURIST] Citation verification failed. Requesting VANGUARD re-scan with proper data citations."
                   "jurist"];
         d_telemetry_data := None; d_anomalies := None;
         d_citations := None; d_decision_traces := None;
         d_simulation_result := None; d_jira_tickets := None;
         d_governor_approval := None; d_settlements := None;
         d_risk_scores := None; d_fhir_observations := None;
         d_edutech_hints := None; d_user_intent := None;
         d_iteration_count := None |}
  else
    let anomalies := get_list (anomalies state) in
    match anomalies with
    | [] =>
        Some
          {| d_current_phase := Some "jurist_complete";
             d_compliance_report :=
               Some (Some (mkdict [("status", PStr "compliant");
                                   ("anomalies_evaluated", PInt 0);
                                   ("findings", PList []);
                                   ("timestamp", PStr now_iso)]));
             d_ui_events :=
               Some [neural_feed (PStr "JURIST")
                       (PStr "No anomalies to evaluate — system compliant by default.")
                       (PStr "low") now_iso];
             d_messages :=
               Some [AIMessage
                       "[JURIST] No anomalies to evaluate. System is compliant."
                       "jurist"];
             d_error_log := None;
             d_telemetry_data := None; d_anomalies := None;
             d_citations := None; d_decision_traces := None;
             d_simulation_result := None; d_jira_tickets := None;
             d_governor_approval := None; d_settlements := None;
             d_risk_scores := None; d_fhir_observations := None;
             d_edutech_hints := None; d_user_intent := None;
             d_iteration_count := None |}
    | _ =>
        let transparency_result := query_eu_ai_act "transparency" in
        let oversight_result := query_eu_ai_act "human oversight" in
        checks ← mapM evaluate_anomaly anomalies;
        let articles_referenced :=
          (sections_of transparency_result 3
           ++ sections_of oversight_result 2)%list in
        let findings := map (finding articles_referenced) checks in
        let all_compliant :=
          forallb (fun ac : pydict * pydict =>
                     py_truthy (dict_get ac.2 "compliant" (PBool false)))
            checks in
        let requires_hitl :=
          existsb (fun ac : pydict * pydict =>
                     py_truthy (dict_get ac.2 "requires_human_oversight"
                                  (PBool false)))
            checks in
        let n := Z.of_nat (length anomalies) in
        let status :=
          if all_compliant then "compliant" else "non_compliant" in
        let compliance_report :=
          mkdict
            [("status", PStr status);
             ("requires_human_oversight", PBool requires_hitl);
             ("anomalies_evaluated", PInt n);
             ("findings", PList findings);
             ("reasoning",
               PStr ("All detected anomalies fall within high-risk AI system classification "
                     ++ "under EU AI Act Articles 6, 9, 13, 14. Autonomous response actions require "
                     ++ "human oversight (Article 14) before execution. Transparency obligations "
                     ++ "(Article 13) satisfied through decision trace logging."));
             ("timestamp", PStr now_iso)] in
        let pk := agent_key "jurist" in
        let trace :=
          sign_decision_trace (clock 1) "jurist"
            (mkdict [("action", PStr "compliance_evaluation");
                     ("status", PStr status);
                     ("anomalies_evaluated", PInt n);
                     ("requires_hitl", PBool requires_hitl)])
            pk in
        let oversight_text :=
          if requires_hitl then "required" else "not required" in
        Some
          {| d_current_phase := Some "jurist_complete";
             d_compliance_report := Some (Some compliance_report);
             d_decision_traces := Some [model_dump trace];
             d_ui_events :=
               Some [neural_feed (PStr "JURIST")
                       (PStr ("Verified " ++ pretty n
                              ++ " anomalie(s) against EU AI Act — "
                              ++ (if all_compliant then "COMPLIANT"
                                  else "NON-COMPLIANT")
                              ++ ". Human oversight " ++ oversight_text ++ "."))
                       (PStr (if all_compliant then "medium" else "high"))
                       now_iso;
                     neural_feed (PStr "JURIST")
                       (PStr "Articles referenced: 6 (Classification), 9 (Risk Mgmt), 13 (Transparency), 14 (Human Oversight)")
                       (PStr "low") now_iso];
             d_messages :=
               Some [AIMessage
                       ("[JURIST] Compliance evaluation complete: " ++ status
                        ++ ". Human oversight: " ++ oversight_text ++ ". Evaluated "
                        ++ pretty n
                        ++ " anomalie(s) against EU AI Act Articles 6, 9, 13, 14.")
                       "jurist"];
             d_error_log := None;
             d_telemetry_data := None; d_anomalies := None;
             d_citations := None;
             d_simulation_result := None; d_jira_tickets := None;
             d_governor_approval := None; d_settlements := None;
             d_risk_scores := None; d_fhir_observations := None;
             d_edutech_hints := None; d_user_intent := None;
             d_iteration_count := None |}
    end.

End Jurist.

(* ===================================================================== *)
(** * agents/edges.py                                                     *)
(* ===================================================================== *)

Definition MAX_ITERATIONS : Z := 5.

Definition route_after_vanguard (state : EcoVerifyState) : string :=
  match get_list (anomalies state) with
  | [] => "__end__"
  | _ => "jurist"
  end.

(** [None]: the [AttributeError] of [compliance.get] on a stored [None]. *)
Definition route_after_jurist (state : EcoVerifyState) : option string :=
  let phase := default EmptyString (current_phase state) in
  let iteration_count := default 0 (iteration_count state) in
  if String.eqb phase "citation_failure" then
    if (MAX_ITERATIONS <=? iteration_count)%Z then Some "__end__"
    else Some "vanguard"
  else
    compliance ← get_dict_or_none (compliance_report state);
    let status := dict_get compliance "status" (PStr "unknown") in
    if py_eq_str status "non_compliant" then Some "governor"
    else Some "architect".

Definition route_after_architect (state : EcoVerifyState) : string :=
  "governor".

(* ===================================================================== *)
(** * agents/nodes/governor.py                                            *)
(* ===================================================================== *)

(** [langgraph.types.Command(goto=..., update=...)] *)
Record Command := {
  goto : string;
  update : Delta;
}.

Section Governor.
Context `{PyLib} `{NodeEnv}.

(** The text shown to the operator. [None]: [simulation] or [compliance]
    is a stored [None] ([AttributeError] on [.get]), or a number does not
    accept its format. *)
Definition governor_action_summary (state : EcoVerifyState)
    : option string :=
  let anomalies := get_list (anomalies state) in
  let jira_tickets := get_list (jira_tickets state) in
  simulation ← get_dict_or_none (simulation_result state);
  savings ← py_format ",.2f" (dict_get simulation "monthly_savings_usd" (PInt 0));
  co2 ← py_format ".1f" (dict_get simulation "co2_tons_saved_annual" (PInt 0));
  compliance ← get_dict_or_none (compliance_report state);
  Some ("Approve maintenance action for " ++ pretty (length anomalies)
        ++ " anomalie(s). Estimated monthly saving: $" ++ savings
        ++ ". CO₂ reduction: " ++ co2 ++ " tons/yr ("
        ++ py_str (dict_get simulation "env_reduction_pct" (PInt 0))
        ++ "%). Compliance status: "
        ++ py_str (dict_get compliance "status" (PStr "unknown"))
        ++ ". Jira tickets to submit: " ++ pretty (length jira_tickets)
        ++ ".").

(** The value handed to [interrupt(...)]; the first run of the node stops
    here. *)
Definition governor_interrupt (state : EcoVerifyState) : option pydict :=
  let now_iso := clock 0 in
  action_summary ← governor_action_summary state;
  simulation ← get_dict_or_none (simulation_result state);
  let ui_pre :=
    [PDict (mkdict
       [("type", PStr "governor_panel");
        ("action_summary", PStr action_summary);
        ("estimated_roi", dict_get simulation "monthly_savings_usd" (PInt 0));
        ("npv_3yr", dict_get simulation "npv_3yr_usd" (PInt 0));
        ("payback_months", dict_get simulation "payback_months" (PInt 0));
        ("co2_tons_saved_annual",
          dict_get simulation "co2_tons_saved_annual" (PInt 0));
        ("env_reduction_pct", dict_get simulation "env_reduction_pct" (PInt 0));
        ("campus_buildings", dict_get simulation "campus_buildings" (PInt 1));
        ("requires_approval", PBool true);
        ("timestamp", PStr now_iso)]);
     PDict (neural_feed (PStr "GOVERNOR")
              (PStr "⏳ Awaiting human approval for state-mutating action…")
              (PStr "medium") now_iso)] in
  Some (mkdict
          [("action_summary", PStr action_summary);
           ("estimated_roi", dict_get simulation "monthly_savings_usd" (PInt 0));
           ("requires_approval", PBool true);
           ("ui_events", PList ui_pre)]).

(** [human_response.get("approved", False) if isinstance(human_response,
    dict) else bool(human_response)] *)
Definition response_approved (human_response : pyval) : pyval :=
  match human_response with
  | PDict r => dict_get r "approved" (PBool false)
  | v => PBool (py_truthy v)
  end.

(** [human_response.get("roi_adjustment", 1.0) if isinstance(human_response,
    dict) else 1.0] *)
Definition response_roi_adjustment (human_response : pyval) : pyval :=
  match human_response with
  | PDict r => dict_get r "roi_adjustment" (PFloat 1%float)
  | _ => PFloat 1%float
  end.

(** The run of [governor_node] in which [interrupt] returns
    [human_response]. *)
Definition governor_node (state : EcoVerifyState) (human_response : pyval)
    : option Command :=
  let now_iso := clock 0 in
  _ ← governor_interrupt state;
  simulation ← get_dict_or_none (simulation_result state);
  let approved := response_approved human_response in
  let roi_adjustment := response_roi_adjustment human_response in
  let pk := agent_key "governor" in
  let trace :=
    sign_decision_trace (clock 1) "governor"
      (mkdict [("action", PStr "human_approval");
               ("approved", approved);
               ("roi_adjustment", roi_adjustment)])
      pk in
  if py_truthy approved then
    Some
      {| goto := "finalize";
         update :=
           {| d_governor_approval := Some (Some true);
              d_current_phase := Some "governor_approved";
              d_decision_traces := Some [model_dump trace];
              d_ui_events :=
                Some [neural_feed (PStr "GOVERNOR")
                        (PStr "✅ Action APPROVED by human operator.")
                        (PStr "low") now_iso];
              d_messages :=
                Some [AIMessage
                        "[GOVERNOR] Human operator approved the action. Proceeding to finalisation."
                        "governor"];
              d_simulation_result := None;
              d_telemetry_data := None; d_anomalies := None;
              d_citations := None; d_compliance_report := None;
              d_jira_tickets := None; d_settlements := None;
              d_risk_scores := None; d_fhir_observations := None;
              d_edutech_hints := None; d_user_intent := None;
              d_error_log := None; d_iteration_count := None |} |}
  else
    roi_2f ← py_format ".2f" roi_adjustment;
    Some
      {| goto := "architect";
         update :=
           {| d_governor_approval := Some (Some false);
              d_current_phase := Some "governor_rejected";
              d_decision_traces := Some [model_dump trace];
              d_simulation_result :=
                Some (Some (<["roi_adjustment" := roi_adjustment]> simulation));
              d_ui_events :=
                Some [neural_feed (PStr "GOVERNOR")
                        (PStr ("❌ Action REJECTED. Re-simulating with ROI adjustment ×"
                               ++ roi_2f ++ "."))
                        (PStr "medium") now_iso];
              d_messages :=
                Some [AIMessage
                        ("[GOVERNOR] Action rejected. Re-routing to ARCHITECT with ROI adjustment "
                         ++ py_str roi_adjustment ++ ".")
                        "governor"];
              d_telemetry_data := None; d_anomalies := None;
              d_citations := None; d_compliance_report := None;
              d_jira_tickets := None; d_settlements := None;
              d_risk_scores := None; d_fhir_observations := None;
              d_edutech_hints := None; d_user_intent := None;
              d_error_log := None; d_iteration_count := None |} |}.

End Governor.

(* ===================================================================== *)
(** * agents/nodes/vanguard.py                                            *)
(* ===================================================================== *)

Section Vanguard.
Context `{PyLib} `{NodeEnv}.

(** [round(((peak - avg) / max(avg, 1)) * 100, 1)] *)
Definition pct_above (peak avg : float) : float :=
  PyNum.py_round 1 (((peak - avg) / PyNum.max_with_one avg) * 100)%float.

(** ["high" if pct_above > threshold else "medium"] *)
Definition severity_of (pct threshold : float) : string :=
  if PrimFloat.ltb threshold pct then "high" else "medium".

Definition metric_of (pct : float) : string :=
  "+" ++ py_str (PFloat pct) ++ "% above average".

(** The energy branch of step 3: the anomalies it appends. *)
Definition energy_anomalies (building_id now_iso : string)
    (e : EnergySummary) : list pydict :=
  if (0 <? e_anomaly_count e)%Z then
    let pct := pct_above (peak_kwh e) (avg_kwh e) in
    [mkdict [("type", PStr "energy_spike");
             ("building_id", PStr building_id);
             ("severity", PStr (severity_of pct 20%float));
             ("metric", PStr (metric_of pct));
             ("peak_kwh", PFloat (peak_kwh e));
             ("avg_kwh", PFloat (avg_kwh e));
             ("anomaly_count", PInt (e_anomaly_count e));
             ("detected_at", PStr now_iso)]]
  else [].

(** The water branch. *)
Definition water_anomalies (building_id now_iso : string)
    (w : WaterSummary) : list pydict :=
  if (0 <? w_anomaly_count w)%Z then
    let pct := pct_above (peak_gallons w) (avg_gallons w) in
    [mkdict [("type", PStr "water_spike");
             ("building_id", PStr building_id);
             ("severity", PStr (severity_of pct 25%float));
             ("metric", PStr (metric_of pct));
             ("peak_gallons", PFloat (peak_gallons w));
             ("avg_gallons", PFloat (avg_gallons w));
             ("anomaly_count", PInt (w_anomaly_count w));
             ("detected_at", PStr now_iso)]]
  else [].

Definition detect_anomalies (building_id now_iso : string)
    (e : EnergySummary) (w : WaterSummary) : list pydict :=
  (energy_anomalies building_id now_iso e
   ++ water_anomalies building_id now_iso w)%list.

(** Step 5: the single [neural_feed] event. *)
Definition vanguard_ui_events (building_id now_iso : string)
    (e : EnergySummary) (anomalies : list pydict) : list pydict :=
  match anomalies with
  | primary :: _ =>
      let metric := py_str (dict_get primary "metric" PNone) in
      let fallback :=
        "Energy spike detected (" ++ metric ++ ") in " ++ building_id in
      let prompt :=
        "Summarise this energy anomaly in one professional sentence for a dashboard feed: "
        ++ "Building " ++ building_id ++ ", "
        ++ py_str (dict_get primary "type" PNone) ++ ", " ++ metric
        ++ ", severity=" ++ py_str (dict_get primary "severity" PNone)
        ++ ", peak=" ++ py_str (PFloat (peak_kwh e)) ++ " kWh, avg="
        ++ py_str (PFloat (avg_kwh e)) ++ " kWh." in
      let anomaly_message := default fallback (llm_invoke prompt) in
      [neural_feed (PStr "VANGUARD") (PStr anomaly_message)
         (dict_get primary "severity" PNone) now_iso]
  | [] =>
      [neural_feed (PStr "VANGUARD")
         (PStr ("Telemetry nominal for " ++ building_id
                ++ " — no anomalies detected."))
         (PStr "low") now_iso]
  end.

Definition vanguard_node (state : EcoVerifyState) : Delta :=
  let building_id := "HQ-01" in
  let now_iso := clock 0 in
  let energy := get_energy_telemetry building_id 24 in
  let water := get_water_telemetry building_id 24 in
  let e_summary := e_summary energy in
  let w_summary := w_summary water in
  let energy_citation :=
    cite_data_source (clock 1) ("bms:energy:" ++ building_id)
      (PDict (energy_dict energy))
      ("Energy avg=" ++ py_str (PFloat (avg_kwh e_summary)) ++ " kWh, peak="
       ++ py_str (PFloat (peak_kwh e_summary)) ++ " kWh") in
  let water_citation :=
    cite_data_source (clock 2) ("bms:water:" ++ building_id)
      (PDict (water_dict water))
      ("Water avg=" ++ py_str (PFloat (avg_gallons w_summary))
       ++ " gal, peak=" ++ py_str (PFloat (peak_gallons w_summary))
       ++ " gal") in
  let anomalies := detect_anomalies building_id now_iso e_summary w_summary in
  let pk := agent_key "vanguard" in
  let trace :=
    sign_decision_trace (clock 3) "vanguard"
      (mkdict [("action", PStr "anomaly_scan");
               ("building_id", PStr building_id);
               ("anomalies_found", PInt (Z.of_nat (length anomalies)));
               ("energy_summary", PDict (energy_summary_dict e_summary));
               ("water_summary", PDict (water_summary_dict w_summary))])
      pk in
  {| d_telemetry_data :=
       Some (Some (mkdict [("energy", PDict (energy_dict energy));
                           ("water", PDict (water_dict water))]));
     d_anomalies := Some anomalies;
     d_citations := Some [energy_citation; water_citation];
     d_decision_traces := Some [model_dump trace];
     d_current_phase := Some "vanguard_complete";
     d_iteration_count := Some (default 0 (iteration_count state) + 1);
     d_ui_events :=
       Some (vanguard_ui_events building_id now_iso e_summary anomalies);
     d_messages :=
       Some [AIMessage
               ("[VANGUARD] Scanned " ++ building_id ++ ": "
                ++ pretty (length anomalies) ++ " anomalie(s) detected. "
                ++ "Energy peak=" ++ py_str (PFloat (peak_kwh e_summary))
                ++ " kWh, " ++ "Water peak="
                ++ py_str (PFloat (peak_gallons w_summary)) ++ " gal.")
               "vanguard"];
     d_compliance_report := None; d_simulation_result := None;
     d_jira_tickets := None; d_governor_approval := None;
     d_settlements := None; d_risk_scores := None;
     d_fhir_observations := None; d_edutech_hints := None;
     d_user_intent := None; d_error_log := None |}.

End Vanguard.

(* ===================================================================== *)
(** * agents/nodes/architect.py                                           *)
(* ===================================================================== *)

Definition CAMPUS_BUILDINGS : Z := 3.

Definition is_ascii_letter (c : ascii) : bool :=
  let n := N_of_ascii c in
  (((65 <=? n) && (n <=? 90)) || ((97 <=? n) && (n <=? 122)))%N.

Definition ascii_lower (c : ascii) : ascii :=
  let n := N_of_ascii c in
  if ((65 <=? n) && (n <=? 90))%N then ascii_of_N (n + 32) else c.

(** [s.replace("_", " ")] *)
Fixpoint str_underscores_to_spaces (s : string) : string :=
  match s with
  | EmptyString => EmptyString
  | String c s' =>
      String (if Ascii.eqb c "_"%char then " "%char else c)
        (str_underscores_to_spaces s')
  end.

(** [s.title()] on ASCII text: a letter after a letter is lower-cased, any
    other letter is upper-cased. *)
Fixpoint str_title_from (previous_is_cased : bool) (s : string) : string :=
  match s with
  | EmptyString => EmptyString
  | String c s' =>
      String (if previous_is_cased then ascii_lower c else ascii_upper c)
        (str_title_from (is_ascii_letter c) s')
  end.

Definition str_title (s : string) : string := str_title_from false s.

Section Architect.
Context `{PyLib} `{NodeEnv}.

(** The adjustment passed to [_compute_roi]: [1.0], or the previous one
    times [0.9] (the float [0x1.ccccccccccccdp-1]) after a rejection.
    [None]: the stored adjustment is not a number. *)
Definition architect_roi_adj (state : EcoVerifyState) : option float :=
  match governor_approval state, simulation_result state with
  | Some (Some false), Some (Some prev) =>
      if bool_decide (prev = ∅) then Some 1%float
      else
        f ← PyNum.as_float (dict_get prev "roi_adjustment" (PFloat 1%float));
        Some (f * 0x1.ccccccccccccdp-1)%float
  | _, _ => Some 1%float
  end.

(** Step 3: the drafted ticket, if any. *)
Definition architect_tickets (anomalies : list pydict) (roi : pydict)
    : option (list pydict) :=
  match anomalies with
  | [] => Some []
  | primary :: _ =>
      ty ← dict_index primary "type";
      title_head ← match ty with
                   | PStr t => Some (str_title (str_underscores_to_spaces t))
                   | _ => None
                   end;
      let building := dict_get primary "building_id" (PStr "HQ-01") in
      savings ← dict_index roi "monthly_savings_usd" ≫= py_format ",.2f";
      npv ← dict_index roi "npv_3yr_usd" ≫= py_format ",.2f";
      let title := "[Auto] " ++ title_head ++ " — " ++ py_str building in
      let description :=
        "Anomaly detected: " ++ py_str (dict_get primary "metric" (PStr "N/A"))
        ++ "." ++ newline ++ "Estimated monthly saving: $" ++ savings ++ "."
        ++ newline ++ "3-year NPV: $" ++ npv ++ "." ++ newline ++ newline
        ++ "Auto-generated by EcoVerify-Prime ARCHITECT agent." in
      let priority :=
        if py_eq_str (dict_get primary "severity" PNone) "high"
        then "High" else "Medium" in
      Some [create_maintenance_ticket title description priority building]
  end.

Definition architect_node (state : EcoVerifyState) : option Delta :=
  let now_iso := clock 0 in
  let anomalies := get_list (anomalies state) in
  roi_adj ← architect_roi_adj state;
  roi ← _compute_roi anomalies roi_adj;
  let scene := _generate_3d_scene anomalies in
  jira_tickets ← architect_tickets anomalies roi;
  let pk := agent_key "architect" in
  monthly ← dict_index roi "monthly_savings_usd";
  npv ← dict_index roi "npv_3yr_usd";
  payback ← dict_index roi "payback_months";
  co2 ← dict_index roi "co2_tons_saved_annual";
  env_pct ← dict_index roi "env_reduction_pct";
  let trace :=
    sign_decision_trace (clock 1) "architect"
      (mkdict [("action", PStr "roi_simulation");
               ("monthly_savings", monthly);
               ("npv_3yr", npv);
               ("payback_months", payback);
               ("co2_tons_saved_annual", co2);
               ("env_reduction_pct", env_pct);
               ("campus_buildings", PInt CAMPUS_BUILDINGS);
               ("tickets_drafted", PInt (Z.of_nat (length jira_tickets)))])
      pk in
  monthly_0f ← py_format ",.0f" monthly;
  npv_0f ← py_format ",.0f" npv;
  co2_1f ← py_format ".1f" co2;
  ticket_events ←
    match jira_tickets with
    | [] => Some []
    | t :: _ =>
        ticket_id ← dict_index t "ticket_id";
        Some [neural_feed (PStr "ARCHITECT")
                (PStr ("Jira ticket drafted: " ++ py_str ticket_id))
                (PStr "low") now_iso]
    end;
  monthly_2f ← py_format ",.2f" monthly;
  npv_2f ← py_format ",.2f" npv;
  Some
    {| d_current_phase := Some "architect_complete";
       d_simulation_result := Some (Some roi);
       d_jira_tickets := Some jira_tickets;
       d_decision_traces := Some [model_dump trace];
       d_ui_events :=
         Some ([neural_feed (PStr "ARCHITECT")
                  (PStr ("ROI Simulation: +$" ++ monthly_0f ++ "/mo across "
                         ++ pretty CAMPUS_BUILDINGS ++ " buildings (NPV 3yr: $"
                         ++ npv_0f ++ "). CO₂ reduced: " ++ co2_1f
                         ++ " tons/yr (" ++ py_str env_pct ++ "%). Payback: "
                         ++ py_str payback ++ " mo."))
                  (PStr "low") now_iso;
                mkdict [("type", PStr "3d_update");
                        ("payload", PDict scene);
                        ("timestamp", PStr now_iso)]]
               ++ ticket_events)%list;
       d_messages :=
         Some [AIMessage
                 ("[ARCHITECT] ROI simulation complete: $" ++ monthly_2f
                  ++ "/mo, NPV 3yr $" ++ npv_2f ++ ". "
                  ++ pretty (length jira_tickets) ++ " ticket(s) drafted.")
                 "architect"];
       d_telemetry_data := None; d_anomalies := None; d_citations := None;
       d_compliance_report := None; d_governor_approval := None;
       d_settlements := None; d_risk_scores := None;
       d_fhir_observations := None; d_edutech_hints := None;
       d_user_intent := None; d_error_log := None;
       d_iteration_count := None |}.

End Architect.

(* ===================================================================== *)
(** * agents/nodes/finalize.py                                            *)
(* ===================================================================== *)

Section Finalize.
Context `{PyLib} `{NodeEnv}.

(** The bracket pair of a node: rhombus for the governor, stadium for the
    vanguard, rectangle for every other agent. *)
Definition mermaid_shape (agent : pyval) : string * string :=
  if py_eq_str agent "governor" then ("{", "}")
  else if py_eq_str agent "vanguard" then ("([", "])")
  else ("[", "]").

(** The [extra] line of a label, chosen by the first key present. *)
Definition mermaid_extra (decision : pydict) : option string :=
  match decision !! "monthly_savings" with
  | Some v => s ← py_format ",.0f" v; Some ("\n$" ++ s ++ "/mo")
  | None =>
      match decision !! "anomalies_found" with
      | Some v => Some ("\n" ++ py_str v ++ " anomalie(s)")
      | None =>
          match decision !! "status" with
          | Some v => Some ("\n" ++ py_str v)
          | None =>
              match decision !! "approved" with
              | Some v =>
                  Some ("\n" ++ (if py_truthy v then "✅ Approved"
                                 else "❌ Rejected"))
              | None => Some EmptyString
              end
          end
      end
  end.

(** [trace.get("agent_id", f"agent_{i}")] *)
Definition trace_agent (i : nat) (trace : pydict) : pyval :=
  dict_get trace "agent_id" (PStr ("agent_" ++ pretty i)).

(** [f"{agent}_{i}"] *)
Definition mermaid_node_id (i : nat) (trace : pydict) : string :=
  py_str (trace_agent i trace) ++ "_" ++ pretty i.

(** [trace.get("payload_hash", "")[:8]] as the f-string prints it. *)
Definition mermaid_sig_short (trace : pydict) : option string :=
  match dict_get trace "payload_hash" (PStr EmptyString) with
  | PStr h => Some (str_take 8 h)
  | PList l => Some (py_str (PList (take 8 l)))
  | _ => None
  end.

(** The node line of a trace. [None]: [agent_id] has no [upper], or
    [decision] has no [get], or a number rejects its format. *)
Definition mermaid_node_line (i : nat) (trace : pydict) : option string :=
  let agent := trace_agent i trace in
  decision ← match dict_get trace "decision" (PDict ∅) with
             | PDict d => Some d
             | _ => None
             end;
  let action := dict_get decision "action" (PStr "unknown") in
  let node_id := mermaid_node_id i trace in
  let '(shape_open, shape_close) := mermaid_shape agent in
  upper ← match agent with
          | PStr a => Some (str_upper a)
          | _ => None
          end;
  let label := upper ++ "\n" ++ py_str action in
  extra ← mermaid_extra decision;
  Some ("    " ++ node_id ++ shape_open ++ dquote ++ label ++ extra
        ++ dquote ++ shape_close).

(** The edge line of a trace: from the previous node into this one. *)
Definition mermaid_edge_line (prev_node : string) (i : nat)
    (trace : pydict) : option string :=
  sig_short ← mermaid_sig_short trace;
  Some ("    " ++ prev_node ++ " -->|" ++ dquote ++ "sig:" ++ sig_short
        ++ dquote ++ "| " ++ mermaid_node_id i trace).

(** The first loop, from index [i] on with [prev_node] as it stands: the
    lines appended and the last value of [prev_node]. *)
Fixpoint mermaid_body (i : nat) (prev_node : string)
    (traces : list pydict) : option (list string * string) :=
  match traces with
  | [] => Some ([], prev_node)
  | trace :: rest =>
      node_line ← mermaid_node_line i trace;
      edge_line ← mermaid_edge_line prev_node i trace;
      '(lines, last) ← mermaid_body (S i) (mermaid_node_id i trace) rest;
      Some (node_line :: edge_line :: lines, last)
  end.

(** The second loop: one [class] line per trace of a known agent. *)
Fixpoint mermaid_class_lines (i : nat) (traces : list pydict)
    : list string :=
  match traces with
  | [] => []
  | trace :: rest =>
      let agent := trace_agent i trace in
      let here :=
        if py_eq_str agent "vanguard" || py_eq_str agent "jurist"
           || py_eq_str agent "architect" || py_eq_str agent "governor"
        then ["    class " ++ mermaid_node_id i trace ++ " " ++ py_str agent]
        else [] in
      (here ++ mermaid_class_lines (S i) rest)%list
  end.

Definition mermaid_start_line : string :=
  "    START((" ++ dquote ++ "🔄 Start" ++ dquote ++ "))".

Definition mermaid_end_line (prev_node : string) : string :=
  "    " ++ prev_node ++ " --> END((" ++ dquote ++ "✅ Complete" ++ dquote
  ++ "))".

Definition mermaid_class_defs : list string :=
  [EmptyString;
   "    classDef vanguard fill:#1e40af,stroke:#3b82f6,color:#fff";
   "    classDef jurist fill:#6b21a8,stroke:#a855f7,color:#fff";
   "    classDef architect fill:#065f46,stroke:#10b981,color:#fff";
   "    classDef governor fill:#92400e,stroke:#f59e0b,color:#fff"].

(** The list [lines] at the [return] of [_build_mermaid_graph]. *)
Definition mermaid_lines (decision_traces : list pydict)
    (anomalies : list pydict) : option (list string) :=
  '(body, prev_node) ← mermaid_body 0 "START" decision_traces;
  Some (["graph TD"; mermaid_start_line] ++ body
        ++ [mermaid_end_line prev_node] ++ mermaid_class_defs
        ++ mermaid_class_lines 0 decision_traces)%list.

Definition _build_mermaid_graph (decision_traces : list pydict)
    (anomalies : list pydict) : option string :=
  lines ← mermaid_lines decision_traces anomalies;
  Some (str_join newline lines).

End Finalize.

Section FinalizeNode.
Context `{PyLib} `{NodeEnv}.

(** [len(v)]; [None] is [TypeError]. *)
Definition py_len (v : pyval) : option nat :=
  match v with
  | PStr s => Some (str_len s)
  | PList l => Some (length l)
  | PDict d => Some (size d)
  | _ => None
  end.

(** [state.get("governor_approval", None)] as a value. *)
Definition approval_value (state : EcoVerifyState) : pyval :=
  match governor_approval state with
  | Some (Some b) => PBool b
  | _ => PNone
  end.

(** [results[i].get("compliant") if len(results) > i else None] *)
Definition compliant_at (results : list pydict) (i : nat) : pyval :=
  match results !! i with
  | Some cr => dict_get cr "compliant" PNone
  | None => PNone
  end.

Definition settlement_events (now_iso : string) (settlements : list pydict)
    : option (list pydict) :=
  match settlements with
  | [] => Some []
  | s0 :: _ =>
      amount ← py_format ".4f" (dict_get s0 "amount_usdc" (PInt 0));
      Some [mkdict [("type", PStr "settlement_update");
                    ("agent", PStr "SYSTEM");
                    ("message",
                      PStr ("USDC settlement: $" ++ amount ++ " ("
                            ++ py_str (dict_get s0 "status" (PStr "unknown"))
                            ++ ")"));
                    ("settlement", PDict s0);
                    ("severity", PStr "low");
                    ("timestamp", PStr now_iso)];
            neural_feed (PStr "SYSTEM")
              (PStr ("💰 A2A settlement: $" ++ amount ++ " USDC on "
                     ++ py_str (dict_get s0 "network" (PStr "devnet"))))
              (PStr "low") now_iso]
  end.

Definition risk_events (now_iso : string) (risk_scores : list pydict)
    : option (list pydict) :=
  match risk_scores with
  | [] => Some []
  | rs :: _ =>
      let score := dict_get rs "score" (PInt 0) in
      score_1f ← py_format ".1f" score;
      ge70 ← PyNum.py_ge score 70;
      ge40 ← (if (ge70 : bool) then Some true else PyNum.py_ge score 40);
      ge40' ← PyNum.py_ge score 40;
      Some [mkdict [("type", PStr "risk_alert");
                    ("agent", PStr "SYSTEM");
                    ("message",
                      PStr ("Risk score: " ++ score_1f ++ "/100 ("
                            ++ py_str (dict_get rs "category" (PStr "unknown"))
                            ++ ")"));
                    ("risk_score", PDict rs);
                    ("severity",
                      PStr (if (ge70 : bool) then "high"
                            else if (ge40 : bool) then "medium" else "low"));
                    ("timestamp", PStr now_iso)];
            neural_feed (PStr "SYSTEM")
              (PStr ("📊 Risk Assessment: " ++ score_1f ++ "/100 — "
                     ++ py_str (dict_get rs "recommendation"
                                  (PStr EmptyString))))
              (PStr (if (ge40' : bool) then "medium" else "low")) now_iso]
  end.

Definition edutech_event (now_iso : string) (hint : pydict) : pydict :=
  mkdict [("type", PStr "edutech_hint");
          ("agent", PStr "SYSTEM");
          ("message",
            PStr ("📚 Upskill: "
                  ++ py_str (dict_get hint "topic" (PStr "Training"))));
          ("hint", PDict hint);
          ("severity", PStr "low");
          ("timestamp", PStr now_iso)].

Definition fhir_events (now_iso : string) (fhir_audit_result : pydict)
    : option (list pydict) :=
  if bool_decide (fhir_audit_result = ∅) then Some []
  else
    lt60 ← PyNum.py_lt
              (dict_get fhir_audit_result "energy_efficiency_score" (PInt 100))
              60;
    score_0f ← py_format ".0f"
                  (dict_get fhir_audit_result "energy_efficiency_score"
                     (PInt 0));
    n_recs ← py_len (dict_get fhir_audit_result "recommendations" (PList []));
    Some [mkdict [("type", PStr "fhir_audit");
                  ("agent", PStr "FHIR");
                  ("message",
                    PStr ("🏥 FHIR Audit: "
                          ++ py_str (dict_get fhir_audit_result "facility_id"
                                       (PStr "N/A"))
                          ++ " — " ++ "score "
                          ++ py_str (dict_get fhir_audit_result
                                       "energy_efficiency_score" (PInt 0))
                          ++ "/100, " ++ "percentile "
                          ++ py_str (dict_get fhir_audit_result
                                       "benchmark_percentile" (PInt 0))
                          ++ "%"));
                  ("audit", PDict fhir_audit_result);
                  ("severity",
                    PStr (if (lt60 : bool) then "medium" else "low"));
                  ("timestamp", PStr now_iso)];
          neural_feed (PStr "FHIR")
            (PStr ("🏥 Clinical energy audit: " ++ score_0f
                   ++ "/100 efficiency, " ++ pretty n_recs
                   ++ " recommendation(s)"))
            (PStr "low") now_iso].

Definition fintech_event (now_iso : string) (cr : pydict) : pydict :=
  let compliant := py_truthy (dict_get cr "compliant" PNone) in
  neural_feed (PStr "FINTECH")
    (PStr ((if compliant then "✅" else "⚠️") ++ " "
           ++ py_str (dict_get cr "framework" (PStr "Unknown")) ++ ": "
           ++ py_str (dict_get cr "details" (PStr EmptyString))))
    (PStr (if compliant then "low" else "high")) now_iso.

(** The delta [finalize_node] returns. Marking the drafted tickets
    ["In Progress"] changes the ticket dicts in place and is not part of
    it. *)
Definition finalize_node (state : EcoVerifyState) : option Delta :=
  let now_iso := clock 0 in
  let decision_traces := decision_traces state in
  let anomalies := get_list (anomalies state) in
  let jira_tickets := get_list (jira_tickets state) in
  let submitted_ids :=
    map (fun t => dict_get t "ticket_id" (PStr "unknown")) jira_tickets in
  let settlements := settlement_block state in
  let risk_scores := risk_block state in
  let edutech_hints := edutech_block state in
  let '(fhir_audit_result, fhir_observations) := fhir_block state in
  let compliance_results := fintech_block state settlements in
  mermaid_definition ← _build_mermaid_graph decision_traces anomalies;
  compliance ← get_dict_or_none (compliance_report state);
  simulation ← get_dict_or_none (simulation_result state);
  let savings := dict_get simulation "monthly_savings_usd" (PInt 0) in
  let summary :=
    mkdict
      [("anomalies_detected", PInt (Z.of_nat (length anomalies)));
       ("compliance_status", dict_get compliance "status" (PStr "unknown"));
       ("monthly_savings_usd", savings);
       ("npv_3yr_usd", dict_get simulation "npv_3yr_usd" (PInt 0));
       ("co2_tons_saved_annual",
         dict_get simulation "co2_tons_saved_annual" (PInt 0));
       ("env_reduction_pct", dict_get simulation "env_reduction_pct" (PInt 0));
       ("tickets_submitted", PList submitted_ids);
       ("decision_traces_count", PInt (Z.of_nat (length decision_traces)));
       ("governor_approved", approval_value state);
       ("fhir_audit_score",
         dict_get fhir_audit_result "energy_efficiency_score" PNone);
       ("genius_act_compliant", compliant_at compliance_results 0);
       ("mica_compliant", compliant_at compliance_results 1);
       ("completed_at", PStr now_iso)] in
  savings_0f ← py_format ",.0f" savings;
  settle_ev ← settlement_events now_iso settlements;
  risk_ev ← risk_events now_iso risk_scores;
  fhir_ev ← fhir_events now_iso fhir_audit_result;
  savings_2f ← py_format ",.2f" savings;
  let ui_events :=
    ([mkdict [("type", PStr "proof_graph");
              ("mermaid", PStr mermaid_definition);
              ("timestamp", PStr now_iso)];
      neural_feed (PStr "SYSTEM")
        (PStr ("Loop complete: " ++ pretty (length anomalies)
               ++ " anomalie(s) resolved, " ++ "$" ++ savings_0f
               ++ "/mo projected saving, " ++ pretty (length submitted_ids)
               ++ " ticket(s) submitted."))
        (PStr "low") now_iso;
      mkdict [("type", PStr "execution_complete");
              ("summary", PDict summary);
              ("timestamp", PStr now_iso)]]
     ++ settle_ev ++ risk_ev ++ map (edutech_event now_iso) edutech_hints
     ++ fhir_ev ++ map (fintech_event now_iso) compliance_results)%list in
  let risk_text :=
    match risk_scores with
    | rs :: _ => py_str (dict_get rs "score" (PStr "N/A"))
    | [] => "N/A"
    end in
  Some
    {| d_current_phase := Some "complete";
       d_settlements := Some settlements;
       d_risk_scores := Some risk_scores;
       d_edutech_hints := Some edutech_hints;
       d_fhir_observations := Some fhir_observations;
       d_ui_events := Some ui_events;
       d_messages :=
         Some [AIMessage
                 ("[SYSTEM] Execution complete. " ++ pretty (length anomalies)
                  ++ " anomalie(s), " ++ "$" ++ savings_2f ++ "/mo saving, "
                  ++ pretty (length submitted_ids) ++ " ticket(s) submitted, "
                  ++ pretty (length settlements) ++ " settlement(s), risk="
                  ++ risk_text ++ ".")
                 "system"];
       d_telemetry_data := None; d_anomalies := None; d_citations := None;
       d_decision_traces := None; d_compliance_report := None;
       d_simulation_result := None; d_jira_tickets := None;
       d_governor_approval := None; d_user_intent := None;
       d_error_log := None; d_iteration_count := None |}.

End FinalizeNode.

(* ===================================================================== *)
(** * agents/graph.py: the five nodes                                     *)
(* ===================================================================== *)

Inductive node := Vanguard | Jurist | Architect | Governor | Finalizer.

Section Graph.
Context `{PyLib} `{NodeEnv}.

(** The state update a node hands to the runtime: its returned dict, or
    the [update] of the governor's [Command] once [interrupt] has returned
    [human_response]. [None]: the node raised. *)
Definition node_update (n : node) (human_response : pyval)
    (state : EcoVerifyState) : option Delta :=
  match n with
  | Vanguard => Some (vanguard_node state)
  | Jurist => jurist_node state
  | Architect => architect_node state
  | Governor => update <$> governor_node state human_response
  | Finalizer => finalize_node state
  end.

End Graph.

(* ===================================================================== *)
(** * Vocabulary of the properties                                        *)
(* ===================================================================== *)

(** ** Tampering with one field of a trace *)

Definition set_agent_id (t : DecisionTrace) (a : string) : DecisionTrace :=
  {| agent_id := a; timestamp := timestamp t; decision := decision t;
     payload_hash := payload_hash t; signature := signature t |}.

Definition set_timestamp (t : DecisionTrace) (ts : string) : DecisionTrace :=
  {| agent_id := agent_id t; timestamp := ts; decision := decision t;
     payload_hash := payload_hash t; signature := signature t |}.

Definition set_decision (t : DecisionTrace) (d : pydict) : DecisionTrace :=
  {| agent_id := agent_id t; timestamp := timestamp t; decision := d;
     payload_hash := payload_hash t; signature := signature t |}.

Definition set_payload_hash (t : DecisionTrace) (h : string) : DecisionTrace :=
  {| agent_id := agent_id t; timestamp := timestamp t; decision := decision t;
     payload_hash := h; signature := signature t |}.

Definition set_signature (t : DecisionTrace) (sg : string) : DecisionTrace :=
  {| agent_id := agent_id t; timestamp := timestamp t; decision := decision t;
     payload_hash := payload_hash t; signature := sg |}.

(** The bytes both [sign_decision_trace] and [verify_decision_trace] hash. *)
Definition canonical_of `{PyLib} (t : DecisionTrace) : bytes :=
  _canonicalise (signable (agent_id t) (timestamp t) (decision t)).

(** ** Tampering with one field of a trace whose decision is any dict *)

Module Tamper.






End Tamper.

(** The payload [verify_decision_trace] serialises for a trace. *)
Definition payload_of (t : AnyDict.DecisionTrace) : AnyDict.pyobj :=
  AnyDict.signable (AnyDict.agent_id t) (AnyDict.timestamp t)
    (AnyDict.decision t).

(** A trace of the nodes, as a trace whose decision is any dict. *)
Definition any_dict_trace (t : DecisionTrace) : AnyDict.DecisionTrace :=
  {| AnyDict.agent_id := agent_id t; AnyDict.timestamp := timestamp t;
     AnyDict.decision := AnyDict.Val (PDict (decision t));
     AnyDict.payload_hash := payload_hash t;
     AnyDict.signature := signature t |}.




(** ** The 64-hex invariant of a citation hash, as the data model words it *)

Definition is_hex_char (c : ascii) : bool :=
  let n := N_of_ascii c in
  (((48 <=? n) && (n <=? 57)) || ((97 <=? n) && (n <=? 102))
   || ((65 <=? n) && (n <=? 70)))%N.

Definition is_hex64 (s : string) : bool :=
  Nat.eqb (str_len s) 64 && forallb is_hex_char (list_ascii_of_string s).

(** ** States *)

Definition has_id (m : Message) : Prop := is_Some (msg_id m).

(** A state as the runtime holds it right after the Jurist step: some state
    with the Jurist's return value merged in. *)
Definition post_jurist `{PyLib} `{NodeEnv} (st : EcoVerifyState) : Prop :=
  exists (uuid4 : nat -> string) (s : EcoVerifyState) (d : Delta),
    jurist_node s = Some d /\ st = merge uuid4 s d.

(** [status] of the compliance report held by the state; ["unknown"] when
    there is no report. *)
Definition reported_status (st : EcoVerifyState) : pyval :=
  match compliance_report st with
  | Some (Some report) => dict_get report "status" (PStr "unknown")
  | _ => PStr "unknown"
  end.

(** The routing table after the Jurist, as the router section words it. *)
Definition route_after_jurist_table (phase : string) (iteration_count : Z)
    (status : pyval) : string :=
  if String.eqb phase "citation_failure" then
    if (5 <=? iteration_count)%Z then "__end__" else "vanguard"
  else if py_eq_str status "non_compliant" then "governor"
  else "architect".

(** ** Traces the proof-graph builder can draw *)

(** A trace dict with a [str] agent id, a dict decision whose
    [monthly_savings], if any, accepts the [",.0f"] format, and a [str]
    payload hash; a missing key is fine, the builder has a default for it. *)
Definition drawable `{PyLib} (i : nat) (trace : pydict) : Prop :=
  (exists a, trace_agent i trace = PStr a)
  /\ (exists d, dict_get trace "decision" (PDict ∅) = PDict d
        /\ forall v, d !! "monthly_savings" = Some v ->
                     is_Some (py_format ",.0f" v))
  /\ (exists h, dict_get trace "payload_hash" (PStr EmptyString) = PStr h).

(** Every trace of the list is drawable at its own index, counted from [i]. *)
Fixpoint all_drawable `{PyLib} (i : nat) (traces : list pydict) : Prop :=
  match traces with
  | [] => True
  | t :: rest => drawable i t /\ all_drawable (S i) rest
  end.

(** The value of [prev_node] when the loop reaches the [k]-th of [traces],
    the loop having started at index [i] with [prev_node = start]. *)
Definition prev_node_from `{PyLib} (start : string) (i : nat)
    (traces : list pydict) (k : nat) : string :=
  match k with
  | O => start
  | S j =>
      match traces !! j with
      | Some t => mermaid_node_id (i + j) t
      | None => start
      end
  end.

(** The node the edge into trace [i] starts from: [START] for the first
    trace, the node of the trace before for every other one. *)
Definition mermaid_prev_node `{PyLib} (traces : list pydict) (i : nat)
    : string :=
  prev_node_from "START" 0 traces i.

(** The text of an edge line from [src] to [dst] labelled [label]. *)
Definition edge_text (src label dst : string) : string :=
  "    " ++ src ++ " -->|" ++ dquote ++ "sig:" ++ label ++ dquote ++ "| " ++ dst.

(* ===================================================================== *)
(** * A concrete instance to run the model on                             *)
(* ===================================================================== *)

Module Demo.

Definition scalar_text (v : pyval) : string :=
  match v with
  | PNone => "null"
  | PBool true => "true"
  | PBool false => "false"
  | PInt z => pretty z
  | PFloat _ => "<float>"
  | PStr s => dquote ++ s ++ dquote
  | PList _ => "[...]"
  | PDict _ => "{...}"
  end.

Definition item_text (render : pyval -> string) (kv : string * pyval)
    : string :=
  dquote ++ kv.1 ++ dquote ++ ":" ++ render kv.2.

Definition dict_text (render : pyval -> string) (d : pydict) : string :=
  "{" ++ str_join "," (map (item_text render) (map_to_list d)) ++ "}".

(** A compact rendering, two dict levels deep. *)
Definition json_text (v : pyval) : string :=
  match v with
  | PDict d =>
      dict_text (fun x => match x with
                          | PDict d' => dict_text scalar_text d'
                          | _ => scalar_text x
                          end) d
  | _ => scalar_text v
  end.

#[export] Instance demo_pylib : PyLib := {|
  json_dumps_canonical := fun v => utf8_encode (json_text v);
  py_repr := scalar_text;
  py_format := fun spec v =>
    match v with
    | PInt z => Some (pretty z)
    | PFloat _ => Some "<float>"
    | PBool b => Some (if b then "1" else "0")
    | _ => None
    end;
|}.

Definition hex_digit (n : N) : ascii :=
  if (n <? 10)%N then ascii_of_N (n + 48) else ascii_of_N (n - 10 + 97).

(** A polynomial checksum modulo [2^256], printed as 64 hexadecimal
    digits. *)
Definition checksum (bs : bytes) : N :=
  foldl (fun acc b => ((acc * 257 + Byte.to_N b + 1) mod 2 ^ 256)%N) 0%N bs.

Fixpoint hex_of_N (digits : nat) (n : N) (acc : string) : string :=
  match digits with
  | O => acc
  | S k => hex_of_N k (n / 16)%N (String (hex_digit (n mod 16)%N) acc)
  end.

Definition digest_text (bs : bytes) : string :=
  hex_of_N 64 (checksum bs) EmptyString.

(** A key is a byte string; a signature is the key followed by the data;
    the digest is the checksum. *)
#[export] Instance demo_crypto : Crypto := {|
  private_key := bytes;
  public_key := bytes;
  derive_public := fun sk => sk;
  ed25519_sign := fun sk data => (sk ++ data)%list;
  ed25519_verify := fun pk sig data => bool_decide (sig = (pk ++ data)%list);
  sha256_hexdigest := digest_text;
|}.

Definition demo_energy : EnergyTelemetry :=
  {| e_building_id := "HQ-01"; e_readings := [];
     e_summary := {| avg_kwh := 130%float; peak_kwh := 182.5%float;
                     e_anomaly_count := 2; total_kwh := 3120%float;
                     e_hours_sampled := 24 |} |}.

Definition demo_water : WaterTelemetry :=
  {| w_building_id := "HQ-01"; w_readings := [];
     w_summary := {| avg_gallons := 300%float; peak_gallons := 330%float;
                     w_anomaly_count := 0; total_gallons := 7200%float;
                     w_hours_sampled := 24 |} |}.

Definition demo_check (action_description : string) (risk_level : pyval)
    : option pydict :=
  match risk_level with
  | PStr r =>
      Some (mkdict
              [("compliant", PBool (negb (String.eqb r "unacceptable")));
               ("requires_human_oversight",
                 PBool (String.eqb r "high" || String.eqb r "unacceptable"));
               ("action_evaluated", PStr action_description)])
  | _ => None
  end.

Definition demo_roi (anomalies : list pydict) (roi_adjustment : float)
    : option pydict :=
  Some (mkdict [("monthly_savings_usd", PInt 14000);
                ("npv_3yr_usd", PInt 432000);
                ("payback_months", PInt 2);
                ("co2_tons_saved_annual", PInt 66);
                ("env_reduction_pct", PInt 30);
                ("roi_adjustment", PFloat roi_adjustment)]).

Definition demo_ticket (title description priority : string)
    (building_id : pyval) : pydict :=
  mkdict [("ticket_id", PStr "ECO-12345"); ("title", PStr title);
          ("description", PStr description); ("priority", PStr priority);
          ("building_id", building_id); ("status", PStr "Open")].

#[export] Instance demo_env : NodeEnv := {|
  clock := fun k => "2026-01-01T00:00:0" ++ pretty k ++ "+00:00";
  agent_key := fun agent => utf8_encode agent;
  get_energy_telemetry := fun _ _ => demo_energy;
  get_water_telemetry := fun _ _ => demo_water;
  llm_invoke := fun _ => None;
  query_eu_ai_act := fun _ => [];
  check_compliance_vector := demo_check;
  _compute_roi := demo_roi;
  _generate_3d_scene := fun _ => ∅;
  create_maintenance_ticket := demo_ticket;
  settlement_block := fun _ => [];
  risk_block := fun _ => [];
  edutech_block := fun _ => [];
  fhir_block := fun _ => (∅, []);
  fintech_block := fun _ _ => [];
|}.

(** The identifiers drawn during the [round]-th merge of a run. *)
Definition demo_uuid4 (round n : nat) : string :=
  "uuid-" ++ pretty round ++ "-" ++ pretty n.

(** A citation whose hash has 64 characters, none of them hexadecimal. *)
Definition sixty_four_z : string :=
  "zzzzzzzzzzzzzzzzzzzzzzzzzzzzzzzzzzzzzzzzzzzzzzzzzzzzzzzzzzzzzzzz".

Definition non_hex_citation : CitationBlock :=
  {| source_id := "bms:energy:HQ-01"; data_hash := sixty_four_z;
     cb_timestamp := "2026-01-01T00:00:00+00:00"; snippet := EmptyString |}.

(** A run from [initial_state]: Vanguard, Jurist, Architect. *)
Definition state_after_vanguard : EcoVerifyState :=
  merge (demo_uuid4 0) initial_state (vanguard_node initial_state).

Definition state_after_jurist : EcoVerifyState :=
  merge (demo_uuid4 1) state_after_vanguard
    (default empty_delta (jurist_node state_after_vanguard)).

Definition state_after_architect : EcoVerifyState :=
  merge (demo_uuid4 2) state_after_jurist
    (default empty_delta (architect_node state_after_jurist)).



(** A signed trace and its key. *)
Definition demo_key : private_key := utf8_encode "governor".

Definition demo_trace : DecisionTrace :=
  sign_decision_trace "2026-01-01T00:00:01+00:00" "governor"
    (mkdict [("action", PStr "human_approval"); ("approved", PBool true)])
    demo_key.

(** Two hand-written traces with different hashes. *)
Definition trace_a : pydict :=
  mkdict [("agent_id", PStr "vanguard");
          ("decision", PDict (mkdict [("action", PStr "scan");
                                      ("anomalies_found", PInt 1)]));
          ("payload_hash", PStr "aaaaaaaa11111111")].

Definition trace_b : pydict :=
  mkdict [("agent_id", PStr "governor");
          ("decision", PDict (mkdict [("action", PStr "human_approval");
                                      ("approved", PBool true)]));
          ("payload_hash", PStr "bbbbbbbb22222222")].

(** [_empty_state()] of [tests/test_graph.py]: the keys [settlements],
    [risk_scores], [fhir_observations], [edutech_hints] and [user_intent] are
    missing. *)
Definition _empty_state : EcoVerifyState :=
  {| messages := []; telemetry_data := Some None; anomalies := Some [];
     citations := Some []; decision_traces := [];
     compliance_report := Some None; simulation_result := Some None;
     jira_tickets := Some []; governor_approval := Some None;
     settlements := []; risk_scores := []; fhir_observations := [];
     edutech_hints := []; user_intent := None;
     current_phase := Some "starting"; error_log := [];
     iteration_count := Some 0; ui_events := [] |}.

(** [_empty_state(current_phase=..., iteration_count=...,
    compliance_report=...)] *)
Definition routing_state (phase : string) (iteration : Z)
    (report : option pydict) : EcoVerifyState :=
  {| messages := []; telemetry_data := Some None; anomalies := Some [];
     citations := Some []; decision_traces := [];
     compliance_report := Some report; simulation_result := Some None;
     jira_tickets := Some []; governor_approval := Some None;
     settlements := []; risk_scores := []; fhir_observations := [];
     edutech_hints := []; user_intent := None;
     current_phase := Some phase; error_log := [];
     iteration_count := Some iteration; ui_events := [] |}.

(** [test_tampered_signature_fails]: character 5 of the signature becomes
    [X], or [Y] if it is [X] already. *)
Fixpoint flip_char (n : nat) (s : string) : string :=
  match s, n with
  | EmptyString, _ => EmptyString
  | String c rest, O =>
      String (if Ascii.eqb c "X"%char then "Y"%char else "X"%char) rest
  | String c rest, S k => String c (flip_char k rest)
  end.

(** The traces of [test_finalize_generates_mermaid]. *)
Definition test_traces : list pydict :=
  [mkdict [("agent_id", PStr "vanguard");
           ("decision", PDict (mkdict [("action", PStr "scan");
                                       ("anomalies_found", PInt 1)]));
           ("payload_hash", PStr "abc123ef")];
   mkdict [("agent_id", PStr "jurist");
           ("decision", PDict (mkdict [("action", PStr "compliance");
                                       ("status", PStr "compliant")]));
           ("payload_hash", PStr "def456ab")]].

(** The text of a key in a JSON object. *)
Definition key_text (k : AnyDict.pykey) : string :=
  match k with
  | AnyDict.KStr s => s
  | AnyDict.KInt z => pretty z
  | AnyDict.KFloat _ => "<float>"
  | AnyDict.KBool true => "true"
  | AnyDict.KBool false => "false"
  | AnyDict.KNone => "null"
  end.

(** An object with every key replaced by its text. *)
Fixpoint key_texts (o : AnyDict.pyobj) : pyval :=
  match o with
  | AnyDict.Val v => v
  | AnyDict.Seq l => PList (map key_texts l)
  | AnyDict.Map items =>
      PDict (list_to_map
               (map (fun item => (key_text item.1, key_texts item.2)) items))
  end.

(** An object that is a [pyval] is rendered as that value, any other object
    with its keys as text. *)
#[export] Instance demo_json_sorted : AnyDict.JsonSorted := {|
  AnyDict.dumps_sorted := fun o =>
    json_dumps_canonical (default (key_texts o) (AnyDict.as_val o));
|}.






End Demo.

(* ===================================================================== *)
(** * Facts about the base-64 codec                                       *)
(* ===================================================================== *)

Module Base64Facts.
Import Base64.
Local Open Scope N_scope.

(** Linear arithmetic with division and remainder by constants. *)
Ltac divmod_lia := zify; Z.to_euclidean_division_equations; lia.

(** Checking a boolean property on every number below a bound. *)
Lemma forallb_below (P : N -> bool) (k : nat) :
  forallb P (map N.of_nat (seq 0 k)) = true ->
  forall v, v < N.of_nat k -> P v = true.
Proof.
  intros Hall v Hv.
  rewrite forallb_forall in Hall.
  apply Hall, in_map_iff.
  exists (N.to_nat v). split; [apply N2Nat.id|].
  apply in_seq. lia.
Qed.

Lemma sextet_ok_all v : v < 64 -> sextet_ok v = true.
Proof. apply (forallb_below sextet_ok 64). vm_compute. reflexivity. Qed.

Lemma b64_value_char v : v < 64 -> b64_value (b64_char v) = Some v.
Proof.
  intros Hv. pose proof (sextet_ok_all v Hv) as Hok.
  unfold sextet_ok in Hok.
  destruct (b64_value (b64_char v)) as [w|]; [|discriminate].
  apply andb_prop in Hok as [Hok _]. apply andb_prop in Hok as [Hok _].
  apply N.eqb_eq in Hok. congruence.
Qed.

Lemma b64_char_not_pad v : v < 64 -> Ascii.eqb (b64_char v) "="%char = false.
Proof.
  intros Hv. pose proof (sextet_ok_all v Hv) as Hok.
  unfold sextet_ok in Hok.
  apply andb_prop in Hok as [Hok _]. apply andb_prop in Hok as [_ Hok].
  by apply negb_true_iff in Hok.
Qed.

Lemma b64_char_is_ascii v : v < 64 -> is_ascii_char (b64_char v) = true.
Proof.
  intros Hv. pose proof (sextet_ok_all v Hv) as Hok.
  unfold sextet_ok in Hok. by apply andb_prop in Hok as [_ Hok].
Qed.

Lemma byte_of_to_N b : byte_of_N (Byte.to_N b) = b.
Proof.
  unfold byte_of_N.
  pose proof (Byte.to_N_bounded b).
  rewrite N.mod_small by lia.
  by rewrite Byte.of_to_N.
Qed.

(** One alphabet character moves the scanner by one position. *)
Lemma a2b_step v s q lc p out :
  v < 64 ->
  a2b_base64 (b64_char v :: s) q lc p out =
    if q =? 0 then a2b_base64 s 1 v 0 out
    else if q =? 1 then
      a2b_base64 s 2 (v mod 16) 0 (byte_of_N (lc * 4 + v / 16) :: out)
    else if q =? 2 then
      a2b_base64 s 3 (v mod 4) 0 (byte_of_N (lc * 16 + v / 4) :: out)
    else a2b_base64 s 0 0 0 (byte_of_N (lc * 64 + v) :: out).
Proof.
  intros Hv. cbn [a2b_base64].
  by rewrite b64_char_not_pad, b64_value_char.
Qed.

(** Three bytes come back from their four characters. *)
Lemma a2b_quad b0 b1 b2 s lc p out :
  let n0 := Byte.to_N b0 in
  let n1 := Byte.to_N b1 in
  let n2 := Byte.to_N b2 in
  a2b_base64
    (b64_char (n0 / 4) :: b64_char ((n0 mod 4) * 16 + n1 / 16)
       :: b64_char ((n1 mod 16) * 4 + n2 / 64) :: b64_char (n2 mod 64) :: s)
    0 lc p out
  = a2b_base64 s 0 0 0 (b2 :: b1 :: b0 :: out).
Proof.
  intros n0 n1 n2.
  assert (n0 <= 255) by apply Byte.to_N_bounded.
  assert (n1 <= 255) by apply Byte.to_N_bounded.
  assert (n2 <= 255) by apply Byte.to_N_bounded.
  assert (n0 / 4 < 64) by divmod_lia.
  assert ((n0 mod 4) * 16 + n1 / 16 < 64) by divmod_lia.
  assert ((n1 mod 16) * 4 + n2 / 64 < 64) by divmod_lia.
  assert (n2 mod 64 < 64) by divmod_lia.
  rewrite !a2b_step by assumption. cbn [N.eqb Pos.eqb].
  replace (n0 / 4 * 4 + ((n0 mod 4) * 16 + n1 / 16) / 16) with n0
    by divmod_lia.
  replace (((n0 mod 4) * 16 + n1 / 16) mod 16 * 16
           + ((n1 mod 16) * 4 + n2 / 64) / 4) with n1
    by divmod_lia.
  replace (((n1 mod 16) * 4 + n2 / 64) mod 4 * 64 + n2 mod 64) with n2
    by divmod_lia.
  subst n0 n1 n2. by rewrite !byte_of_to_N.
Qed.

Lemma a2b_encode_aux k : forall bs lc p out,
  (length bs <= k)%nat ->
  a2b_base64 (b64encode_chars bs) 0 lc p out = Some (rev out ++ bs)%list.
Proof.
  induction k as [|k IH]; intros bs lc p out Hlen.
  - destruct bs; [|simpl in Hlen; lia]. cbn. by rewrite app_nil_r.
  - destruct bs as [|b0 [|b1 [|b2 rest]]].
    + cbn. by rewrite app_nil_r.
    + cbn [b64encode_chars].
      pose proof (Byte.to_N_bounded b0).
      assert (Byte.to_N b0 / 4 < 64) by divmod_lia.
      assert ((Byte.to_N b0 mod 4) * 16 < 64) by divmod_lia.
      rewrite !a2b_step by assumption. cbn.
      replace (Byte.to_N b0 / 4 * 4 + (Byte.to_N b0 mod 4) * 16 / 16)
        with (Byte.to_N b0) by divmod_lia.
      by rewrite byte_of_to_N.
    + cbn [b64encode_chars].
      pose proof (Byte.to_N_bounded b0). pose proof (Byte.to_N_bounded b1).
      assert (Byte.to_N b0 / 4 < 64) by divmod_lia.
      assert ((Byte.to_N b0 mod 4) * 16 + Byte.to_N b1 / 16 < 64)
        by divmod_lia.
      assert ((Byte.to_N b1 mod 16) * 4 < 64) by divmod_lia.
      rewrite !a2b_step by assumption. cbn.
      replace (Byte.to_N b0 / 4 * 4
               + ((Byte.to_N b0 mod 4) * 16 + Byte.to_N b1 / 16) / 16)
        with (Byte.to_N b0) by divmod_lia.
      replace (((Byte.to_N b0 mod 4) * 16 + Byte.to_N b1 / 16) mod 16 * 16
               + (Byte.to_N b1 mod 16) * 4 / 4)
        with (Byte.to_N b1) by divmod_lia.
      rewrite !byte_of_to_N. cbn. by rewrite <- !app_assoc.
    + cbn [b64encode_chars]. rewrite a2b_quad.
      rewrite IH by (simpl in Hlen; lia).
      cbn. by rewrite <- !app_assoc.
Qed.

Lemma b64encode_chars_ascii bs :
  forallb is_ascii_char (b64encode_chars bs) = true.
Proof.
  assert (forall k bs, (length bs <= k)%nat ->
            forallb is_ascii_char (b64encode_chars bs) = true) as Haux.
  { clear bs. induction k as [|k IH]; intros bs Hlen.
    - destruct bs; [done|simpl in Hlen; lia].
    - destruct bs as [|b0 [|b1 [|b2 rest]]]; [done| | |].
      all: cbn [b64encode_chars forallb];
        pose proof (Byte.to_N_bounded b0);
        try pose proof (Byte.to_N_bounded b1);
        try pose proof (Byte.to_N_bounded b2);
        rewrite ?b64_char_is_ascii by divmod_lia;
        try done.
      cbn. apply IH. simpl in Hlen. lia. }
  by apply (Haux (length bs)).
Qed.

(** Decoding what [b64encode] wrote gives the bytes back. *)
Lemma b64decode_b64encode bs : b64decode (b64encode bs) = Some bs.
Proof.
  unfold b64decode, b64encode.
  rewrite list_ascii_of_string_of_list_ascii, b64encode_chars_ascii.
  by rewrite (a2b_encode_aux (length bs)).
Qed.

(** A character outside the alphabet changes nothing. *)
Lemma b64decode_skip c s :
  is_ascii_char c = true ->
  Ascii.eqb c "="%char = false ->
  b64_value c = None ->
  b64decode (String c s) = b64decode s.
Proof.
  intros Hascii Hpad Hval. unfold b64decode.
  cbn [list_ascii_of_string forallb a2b_base64].
  by rewrite Hascii, Hpad, Hval.
Qed.

End Base64Facts.

(* ===================================================================== *)
(** * Decision traces: signing and verification                           *)
(* ===================================================================== *)

Section SigningFacts.
Context `{PyLib} `{Crypto}.

(** What [verify_decision_trace] computes, in one equation. *)
Lemma verify_decision_trace_unfold (t : DecisionTrace) (pk : public_key) :
  verify_decision_trace t pk =
    if String.eqb (sha256_hexdigest (canonical_of t)) (payload_hash t)
    then match Base64.b64decode (signature t) with
         | Some sig_bytes => ed25519_verify pk sig_bytes (canonical_of t)
         | None => false
         end
    else false.
Proof.
  unfold verify_decision_trace, canonical_of.
  by destruct (String.eqb _ _).
Qed.

Lemma canonical_of_sign now agent d sk :
  canonical_of (sign_decision_trace now agent d sk)
  = _canonicalise (signable agent now d).
Proof. reflexivity. Qed.

(** A stored hash that differs from the recomputed one is rejected, whatever
    the signature. *)
Lemma verify_hash_mismatch (t : DecisionTrace) (pk : public_key) :
  sha256_hexdigest (canonical_of t) <> payload_hash t ->
  verify_decision_trace t pk = false.
Proof.
  intros Hne. rewrite verify_decision_trace_unfold.
  destruct (String.eqb_spec (sha256_hexdigest (canonical_of t))
              (payload_hash t)); [contradiction|done].
Qed.

(** Junk in front of a valid signature is discarded by the decoder. *)
Lemma verify_ignores_leading_space :
  ed25519_correct ->
  forall now agent d sk,
    let t := sign_decision_trace now agent d sk in
    verify_decision_trace (set_signature t (String " "%char (signature t)))
      (derive_public sk) = true.
Proof.
  intros Hcorrect now agent d sk t.
  rewrite verify_decision_trace_unfold. cbn [payload_hash set_signature signature].
  change (canonical_of (set_signature t _)) with (canonical_of t).
  subst t. cbn [payload_hash sign_decision_trace signature].
  rewrite canonical_of_sign, String.eqb_refl.
  rewrite Base64Facts.b64decode_skip by reflexivity.
  rewrite Base64Facts.b64decode_b64encode. apply Hcorrect.
Qed.

End SigningFacts.

Section DemoCrypto.
Import Demo.


End DemoCrypto.

(** A trace the nodes sign verifies under the matching public key. *)
Lemma node_trace_verifies `{PyLib} `{Crypto} :
  ed25519_correct ->
  forall (now agent : string) (d : pydict) (sk : private_key),
    verify_decision_trace (sign_decision_trace now agent d sk)
      (derive_public sk) = true.
Proof.
  intros Hcorrect now agent d sk.
  rewrite verify_decision_trace_unfold, canonical_of_sign.
  cbn [payload_hash signature sign_decision_trace].
  rewrite String.eqb_refl, Base64Facts.b64decode_b64encode.
  apply Hcorrect.
Qed.

Section AnyDictFacts.
Context `{AnyDict.JsonSorted} `{Crypto}.

(** The payload has three string keys: only the decision can stop the
    serialiser. *)
Lemma sortable_signable (agent ts : string) (d : AnyDict.pyobj) :
  AnyDict.sortable (AnyDict.signable agent ts d) = AnyDict.sortable d.
Proof.
  unfold AnyDict.signable.
  cbn [AnyDict.sortable map fst snd forallb AnyDict.keys_sortable
       AnyDict.is_str orb andb].
  by rewrite andb_true_r.
Qed.

Lemma canonicalise_signable (agent ts : string) (d : AnyDict.pyobj) :
  AnyDict._canonicalise (AnyDict.signable agent ts d)
  = if AnyDict.sortable d
    then Some (AnyDict.dumps_sorted (AnyDict.signable agent ts d))
    else None.
Proof. unfold AnyDict._canonicalise. by rewrite sortable_signable. Qed.


(** What [verify_decision_trace] computes, in one equation. *)
Lemma any_dict_verify_unfold (t : AnyDict.DecisionTrace) (pk : public_key) :
  AnyDict.verify_decision_trace t pk
  = if AnyDict.sortable (AnyDict.decision t) then
      Some (if String.eqb
                 (sha256_hexdigest (AnyDict.dumps_sorted (payload_of t)))
                 (AnyDict.payload_hash t)
            then match Base64.b64decode (AnyDict.signature t) with
                 | Some sig_bytes =>
                     ed25519_verify pk sig_bytes
                       (AnyDict.dumps_sorted (payload_of t))
                 | None => false
                 end
            else false)
    else None.
Proof.
  unfold AnyDict.verify_decision_trace, payload_of.
  rewrite canonicalise_signable.
  destruct (AnyDict.sortable _); [|done].
  cbn [mbind option_bind]. by destruct (String.eqb _ _).
Qed.



End AnyDictFacts.

(** The two models agree on a decision with string keys. *)
Lemma sign_str_keys `{PyLib} `{AnyDict.JsonSorted} `{Crypto} :
  dumps_agree ->
  forall (now agent : string) (d : pydict) (sk : private_key),
    AnyDict.sign_decision_trace now agent (AnyDict.Val (PDict d)) sk
    = Some (any_dict_trace (sign_decision_trace now agent d sk)).
Proof.
  intros Hagree now agent d sk.
  unfold AnyDict.sign_decision_trace. cbn [AnyDict.is_dict].
  rewrite canonicalise_signable. cbn [AnyDict.sortable mbind option_bind].
  rewrite (Hagree _ (PDict (signable agent now d))) by reflexivity.
  reflexivity.
Qed.

Lemma verify_str_keys `{PyLib} `{AnyDict.JsonSorted} `{Crypto} :
  dumps_agree ->
  forall (t : DecisionTrace) (pk : public_key),
    AnyDict.verify_decision_trace (any_dict_trace t) pk
    = Some (verify_decision_trace t pk).
Proof.
  intros Hagree t pk. rewrite any_dict_verify_unfold.
  cbn [any_dict_trace AnyDict.decision AnyDict.sortable].
  unfold payload_of.
  cbn [any_dict_trace AnyDict.decision AnyDict.agent_id AnyDict.timestamp
       AnyDict.payload_hash AnyDict.signature].
  rewrite (Hagree _ (PDict (signable (agent_id t) (timestamp t) (decision t))))
    by reflexivity.
  by rewrite verify_decision_trace_unfold.
Qed.

Section DemoJson.
Import Demo.

Lemma demo_dumps_agree : dumps_agree.
Proof.
  intros o v Hv. cbn [AnyDict.dumps_sorted demo_json_sorted].
  by rewrite Hv.
Defined.

Lemma demo_int_key_as_text : int_key_as_text.
Proof. intros agent ts z v. reflexivity. Defined.

End DemoJson.

Section MixedKeys.
Import Demo.


End MixedKeys.


Section SignThenVerifyDemo.
Import Demo.


End SignThenVerifyDemo.

Section TamperCounterexample.
Import Demo.


End TamperCounterexample.


Section TamperDetectionDemo.
Import Demo.



End TamperDetectionDemo.

(* ===================================================================== *)
(** * Citations                                                           *)
(* ===================================================================== *)

Lemma citations_loop_length (cs : list CitationBlock) :
  citations_loop cs = true
  <-> Forall (fun c => str_len (data_hash c) = 64%nat) cs.
Proof.
  induction cs as [|c cs IH]; cbn [citations_loop].
  - split; [constructor|done].
  - destruct (String.eqb_spec (data_hash c) EmptyString) as [Hempty|Hne];
      cbn [orb].
    + split; [done|]. intros Hall. apply Forall_cons in Hall as [Hlen _].
      rewrite Hempty in Hlen. discriminate.
    + destruct (Nat.eqb_spec (str_len (data_hash c)) 64) as [Hlen|Hlen];
        cbn [negb].
      * rewrite IH. split; [by constructor|]. intros Hall.
        by apply Forall_cons in Hall as [_ ?].
      * split; [done|]. intros Hall. by apply Forall_cons in Hall as [? _].
Qed.

Lemma is_hex64_length (s : string) :
  is_hex64 s = true -> str_len s = 64%nat.
Proof.
  unfold is_hex64. intros Hhex. apply andb_prop in Hhex as [Hlen _].
  by apply Nat.eqb_eq.
Qed.

(** Hashes that do satisfy the 64-hex invariant are accepted. *)
Lemma hex64_citations_present (cs : list CitationBlock) :
  cs <> [] ->
  Forall (fun c => is_hex64 (data_hash c) = true) cs ->
  verify_citations_present cs = true.
Proof.
  intros Hne Hall. destruct cs as [|c cs]; [done|].
  unfold verify_citations_present. apply citations_loop_length.
  eapply Forall_impl; [exact Hall|]. intros c' Hc'. by apply is_hex64_length.
Qed.

(** C7, counterexample. A single citation whose hash is 64 times the letter
    [z] is accepted although the hash is not hexadecimal. *)
Lemma non_hex_citation_accepted :
  verify_citations_present [Demo.non_hex_citation] = true
  /\ is_hex64 (data_hash Demo.non_hex_citation) = false.
Proof. split; vm_compute; reflexivity. Qed.

(** C7, amended. [verify_citations_present] returns true exactly when the
    list is non-empty and every [data_hash] has 64 characters; which
    characters the hash is made of is not examined. *)
Theorem citations_present_iff_length (cs : list CitationBlock) :
  verify_citations_present cs = true
  <-> cs <> [] /\ Forall (fun c => str_len (data_hash c) = 64%nat) cs.
Proof.
  destruct cs as [|c cs].
  - cbn. split; [done|]. by intros [? _].
  - unfold verify_citations_present. rewrite citations_loop_length.
    split; [by intros ?; split|by intros [_ ?]].
Qed.

(* ===================================================================== *)
(** * The Jurist and the router behind it                                 *)
(* ===================================================================== *)

Section JuristFacts.
Context `{PyLib} `{NodeEnv}.

(** What the Jurist can return: a citation failure without a report, or a
    completed evaluation with a report whose status is one of two strings. *)
Lemma jurist_node_shape (s : EcoVerifyState) (d : Delta) :
  jurist_node s = Some d ->
  (d_current_phase d = Some "citation_failure"
   /\ d_compliance_report d = Some None)
  \/ (d_current_phase d = Some "jurist_complete"
      /\ exists report status,
           d_compliance_report d = Some (Some report)
           /\ report !! "status" = Some (PStr status)
           /\ (status = "compliant" \/ status = "non_compliant")).
Proof.
  unfold jurist_node.
  destruct (verify_citations_present (get_list (citations s))); cbn [negb].
  - destruct (get_list (anomalies s)) as [|a rest] eqn:Han.
    + intros [= <-]. right. split; [done|].
      eexists _, "compliant". split; [reflexivity|]. split; [|by left].
      reflexivity.
    + destruct (mapM evaluate_anomaly (a :: rest)) as [checks|]; [|done].
      cbn [mbind option_bind]. intros [= <-]. right. split; [done|].
      eexists _, _. split; [reflexivity|]. split; [reflexivity|].
      destruct (forallb _ checks); [by left|by right].
  - intros [= <-]. by left.
Qed.

End JuristFacts.

(** C3. When the citations of the state fail [verify_citations_present], the
    Jurist returns a delta that sets the phase to [citation_failure], brings
    exactly one error line and exactly one high-severity feed event, sets the
    compliance report to [None] and carries no decision trace; merged into the
    state, it appends that one line and that one event and leaves the traces
    as they were. *)
Theorem jurist_citation_failure `{PyLib} `{NodeEnv} :
  forall (state : EcoVerifyState),
    verify_citations_present (get_list (citations state)) = false ->
    exists (d : Delta) (line : string) (event : pydict),
      jurist_node state = Some d
      /\ d_current_phase d = Some "citation_failure"
      /\ d_error_log d = Some [line]
      /\ d_ui_events d = Some [event]
      /\ event !! "type" = Some (PStr "neural_feed")
      /\ event !! "agent" = Some (PStr "JURIST")
      /\ event !! "severity" = Some (PStr "high")
      /\ d_compliance_report d = Some None
      /\ d_decision_traces d = None
      /\ forall uuid4,
           let s' := merge uuid4 state d in
           current_phase s' = Some "citation_failure"
           /\ error_log s' = (error_log state ++ [line])%list
           /\ ui_events s' = (ui_events state ++ [event])%list
           /\ compliance_report s' = Some None
           /\ decision_traces s' = decision_traces state.
Proof.
  intros state Hfail. unfold jurist_node. rewrite Hfail. cbn [negb].
  eexists _, _, _. split; [reflexivity|].
  do 8 (split; [reflexivity|]).
  intros uuid4. do 4 (split; [reflexivity|]). reflexivity.
Qed.

Section JuristCitationFailureDemo.
Import Demo.

Lemma jurist_citation_failure_demo :
  verify_citations_present (get_list (citations initial_state)) = false
  /\ exists (d : Delta) (line : string) (event : pydict),
      jurist_node initial_state = Some d
      /\ d_current_phase d = Some "citation_failure"
      /\ d_error_log d = Some [line]
      /\ d_ui_events d = Some [event]
      /\ event !! "type" = Some (PStr "neural_feed")
      /\ event !! "agent" = Some (PStr "JURIST")
      /\ event !! "severity" = Some (PStr "high")
      /\ d_compliance_report d = Some None
      /\ d_decision_traces d = None
      /\ forall uuid4,
           let s' := merge uuid4 initial_state d in
           current_phase s' = Some "citation_failure"
           /\ error_log s' = (error_log initial_state ++ [line])%list
           /\ ui_events s' = (ui_events initial_state ++ [event])%list
           /\ compliance_report s' = Some None
           /\ decision_traces s' = decision_traces initial_state.
Proof.
  split; [reflexivity|].
  apply (jurist_citation_failure initial_state). reflexivity.
Defined.

End JuristCitationFailureDemo.

Section RouterFacts.
Context `{PyLib} `{NodeEnv}.

Lemma route_table_codomain phase iteration status :
  In (route_after_jurist_table phase iteration status)
    ["vanguard"; "governor"; "architect"; "__end__"].
Proof.
  unfold route_after_jurist_table.
  destruct (String.eqb phase "citation_failure").
  - destruct (5 <=? iteration)%Z; cbn; tauto.
  - destruct (py_eq_str status "non_compliant"); cbn; tauto.
Qed.

(** After the Jurist the state names a phase, and holds a report unless the
    phase is [citation_failure]. *)
Lemma post_jurist_shape (st : EcoVerifyState) :
  post_jurist st ->
  (current_phase st = Some "citation_failure")
  \/ (current_phase st = Some "jurist_complete"
      /\ exists report, compliance_report st = Some (Some report)).
Proof.
  intros (uuid4 & s & d & Hd & ->).
  destruct (jurist_node_shape s d Hd) as [[Hp Hr]|(Hp & report & status & Hr & _)].
  - left. cbn. by rewrite Hp.
  - right. cbn. rewrite Hp, Hr. split; [done|]. by exists report.
Qed.

End RouterFacts.

(** C4. On every state the runtime holds right after the Jurist,
    [route_after_jurist] returns a value, the value is the one the routing
    table gives for the state's phase, iteration count and report status, and
    it is one of [vanguard], [governor], [architect], [__end__]. *)
Theorem route_after_jurist_total `{PyLib} `{NodeEnv} :
  forall (st : EcoVerifyState),
    post_jurist st ->
    let phase := default EmptyString (current_phase st) in
    let iteration := default 0 (iteration_count st) in
    let next := route_after_jurist_table phase iteration (reported_status st) in
    route_after_jurist st = Some next
    /\ In next ["vanguard"; "governor"; "architect"; "__end__"]
    /\ (phase = "citation_failure" ->
        next = if (5 <=? iteration)%Z then "__end__" else "vanguard")
    /\ (phase <> "citation_failure" ->
        next = if py_eq_str (reported_status st) "non_compliant"
               then "governor" else "architect").
Proof.
  intros st Hpost phase iteration next.
  split; [|split; [apply route_table_codomain|split]].
  - unfold route_after_jurist. subst next phase iteration.
    unfold route_after_jurist_table, reported_status.
    destruct (post_jurist_shape st Hpost) as [Hp|(Hp & report & Hr)].
    + rewrite Hp. cbn. unfold MAX_ITERATIONS. by destruct (5 <=? _)%Z.
    + rewrite Hp, Hr. cbn. by destruct (py_eq_str _ _).
  - intros Hp. subst next. unfold route_after_jurist_table.
    by rewrite Hp.
  - intros Hp. subst next. unfold route_after_jurist_table.
    destruct (String.eqb_spec phase "citation_failure"); [contradiction|done].
Qed.

Section RouteAfterJuristDemo.
Import Demo.

Lemma demo_post_jurist : post_jurist state_after_jurist.
Proof.
  exists (demo_uuid4 1), state_after_vanguard,
    (default empty_delta (jurist_node state_after_vanguard)).
  split; [vm_compute; reflexivity|reflexivity].
Defined.

Lemma route_after_jurist_demo :
  post_jurist state_after_jurist
  /\ route_after_jurist state_after_jurist = Some "architect".
Proof.
  split; [exact demo_post_jurist|].
  destruct (route_after_jurist_total state_after_jurist demo_post_jurist)
    as [Hroute _].
  rewrite Hroute. vm_compute. reflexivity.
Defined.

End RouteAfterJuristDemo.

(* ===================================================================== *)
(** * The Governor                                                        *)
(* ===================================================================== *)

Section GovernorFacts.
Context `{PyLib} `{NodeEnv}.

(** A stored [None] in [simulation_result] stops the node before it reaches
    [interrupt]: [simulation.get] raises. *)
Lemma governor_node_null_simulation (state : EcoVerifyState)
    (human_response : pyval) :
  simulation_result state = Some None ->
  governor_interrupt state = None
  /\ governor_node state human_response = None.
Proof.
  intros Hnull.
  assert (governor_interrupt state = None) as Hint.
  { unfold governor_interrupt, governor_action_summary. by rewrite Hnull. }
  split; [exact Hint|]. unfold governor_node. by rewrite Hint.
Qed.


End GovernorFacts.



Section GovernorDemo.
Import Demo.



(** On the state a run starts from, where [simulation_result] is [None], the
    node raises before it reaches the interrupt: no response is ever
    delivered there. *)
Lemma governor_node_without_simulation (human_response : pyval) :
  governor_interrupt initial_state = None
  /\ governor_node initial_state human_response = None.
Proof. by apply governor_node_null_simulation. Qed.

End GovernorDemo.

(* ===================================================================== *)
(** * The Detector                                                        *)
(* ===================================================================== *)

Section VanguardFacts.
Context `{PyLib} `{NodeEnv}.

Lemma energy_anomalies_fire (building now : string) (e : EnergySummary) :
  energy_anomalies building now e <> [] <-> 0 < e_anomaly_count e.
Proof.
  unfold energy_anomalies.
  destruct (Z.ltb_spec 0 (e_anomaly_count e)); split; intros; try done; lia.
Qed.

Lemma water_anomalies_fire (building now : string) (w : WaterSummary) :
  water_anomalies building now w <> [] <-> 0 < w_anomaly_count w.
Proof.
  unfold water_anomalies.
  destruct (Z.ltb_spec 0 (w_anomaly_count w)); split; intros; try done; lia.
Qed.

Lemma energy_anomaly_fields (building now : string) (e : EnergySummary)
    (a : pydict) :
  In a (energy_anomalies building now e) ->
  a !! "type" = Some (PStr "energy_spike")
  /\ a !! "severity"
     = Some (PStr (severity_of (pct_above (peak_kwh e) (avg_kwh e)) 20%float)).
Proof.
  unfold energy_anomalies. destruct (0 <? e_anomaly_count e)%Z; [|done].
  intros [<-|[]]. split; reflexivity.
Qed.

Lemma water_anomaly_fields (building now : string) (w : WaterSummary)
    (a : pydict) :
  In a (water_anomalies building now w) ->
  a !! "type" = Some (PStr "water_spike")
  /\ a !! "severity"
     = Some (PStr (severity_of (pct_above (peak_gallons w) (avg_gallons w))
                     25%float)).
Proof.
  unfold water_anomalies. destruct (0 <? w_anomaly_count w)%Z; [|done].
  intros [<-|[]]. split; reflexivity.
Qed.

End VanguardFacts.

Section DetectorCounterexample.
Import Demo.

(** C6, counterexample. Average 100 kWh, peak 120.04 kWh
    ([0x1.e028f5c28f5c3p+6]), one anomalous reading: the peak exceeds the
    mean by more than 20% ([0x1.999999999999ap-3] is the float [0.2]), and
    the anomaly is classified [medium], because the percentage is rounded to
    [20.0] before it is compared. With the peak equal to the average the
    anomaly is emitted all the same. *)
Lemma rounding_hides_high_severity :
  let e := {| avg_kwh := 100%float; peak_kwh := 0x1.e028f5c28f5c3p+6%float;
              e_anomaly_count := 1; total_kwh := 2400%float;
              e_hours_sampled := 24 |} in
  let flat := {| avg_kwh := 240%float; peak_kwh := 240%float;
                 e_anomaly_count := 24; total_kwh := 5760%float;
                 e_hours_sampled := 24 |} in
  PrimFloat.ltb 0x1.999999999999ap-3
    ((peak_kwh e - avg_kwh e) / avg_kwh e)%float = true
  /\ (exists a, energy_anomalies "HQ-01" (clock 0) e = [a]
                /\ a !! "severity" = Some (PStr "medium"))
  /\ PrimFloat.ltb (avg_kwh flat) (peak_kwh flat) = false
  /\ (exists a, energy_anomalies "HQ-01" (clock 0) flat = [a]
                /\ a !! "type" = Some (PStr "energy_spike")).
Proof.
  intros e flat. split; [vm_compute; reflexivity|].
  split; [eexists; split; [reflexivity|vm_compute; reflexivity]|].
  split; [vm_compute; reflexivity|].
  eexists; split; [reflexivity|vm_compute; reflexivity].
Qed.

End DetectorCounterexample.

(** C6, amended. The Detector emits an energy (water) anomaly exactly when
    the energy (water) summary's [anomaly_count] is positive, whatever the
    peak and the mean; its severity is [high] when
    [round(((peak - avg) / max(avg, 1)) * 100, 1)], the quotient taken first
    and the result rounded to one decimal, is greater than 20 (25 for water)
    and [medium] otherwise, where [max(avg, 1)] is [1] for an average below 1
    and the average otherwise; the anomalies the node returns are the energy
    ones followed by the water ones. *)
Theorem detector_classification `{PyLib} `{NodeEnv} :
  forall (state : EcoVerifyState),
    let e := e_summary (get_energy_telemetry "HQ-01" 24) in
    let w := w_summary (get_water_telemetry "HQ-01" 24) in
    let found_e := energy_anomalies "HQ-01" (clock 0) e in
    let found_w := water_anomalies "HQ-01" (clock 0) w in
    let pct := fun peak avg : float =>
      PyNum.py_round 1
        (((peak - avg) / (if PrimFloat.ltb avg 1 then 1 else avg)) * 100)%float in
    d_anomalies (vanguard_node state) = Some (found_e ++ found_w)%list
    /\ (found_e <> [] <-> 0 < e_anomaly_count e)
    /\ (found_w <> [] <-> 0 < w_anomaly_count w)
    /\ (forall a, In a found_e ->
          a !! "type" = Some (PStr "energy_spike")
          /\ a !! "severity"
             = Some (PStr (if PrimFloat.ltb 20 (pct (peak_kwh e) (avg_kwh e))
                           then "high" else "medium")))
    /\ (forall a, In a found_w ->
          a !! "type" = Some (PStr "water_spike")
          /\ a !! "severity"
             = Some (PStr (if PrimFloat.ltb 25
                                (pct (peak_gallons w) (avg_gallons w))
                           then "high" else "medium"))).
Proof.
  intros state e w found_e found_w pct.
  split; [reflexivity|].
  split; [apply energy_anomalies_fire|].
  split; [apply water_anomalies_fire|].
  split; intros a Ha.
  - by apply energy_anomaly_fields in Ha.
  - by apply water_anomaly_fields in Ha.
Qed.

(** The order of the operations matters. With an average of 260.0 and a peak
    of 312.13 ([0x1.382147ae147aep+8]) the node's expression is rounded to
    20.0 and the anomaly is [medium]; multiplying by 100 before dividing
    gives 20.1 ([0x1.419999999999ap+4]), which would be [high]. *)
Lemma quotient_before_percent :
  let peak := 0x1.382147ae147aep+8%float in
  let avg := 260%float in
  pct_above peak avg = 20%float
  /\ severity_of (pct_above peak avg) 20 = "medium"
  /\ PyNum.py_round 1 (100 * (peak - avg) / PyNum.max_with_one avg)%float
     = 0x1.419999999999ap+4%float.
Proof. vm_compute. by repeat split. Qed.

Section DetectorDemo.
Import Demo.

Lemma detector_classification_demo :
  exists a,
    d_anomalies (vanguard_node initial_state) = Some [a]
    /\ In a (energy_anomalies "HQ-01" (clock 0)
               (e_summary (get_energy_telemetry "HQ-01" 24)))
    /\ a !! "type" = Some (PStr "energy_spike")
    /\ a !! "severity" = Some (PStr "high").
Proof.
  destruct (detector_classification initial_state)
    as (Hfound & _ & _ & Henergy & _).
  set (found := energy_anomalies "HQ-01" (clock 0)
                  (e_summary (get_energy_telemetry "HQ-01" 24))) in *.
  exists (hd ∅ found).
  assert (In (hd ∅ found) found) as Hin by (left; reflexivity).
  split; [rewrite Hfound; reflexivity|].
  split; [exact Hin|].
  destruct (Henergy _ Hin) as [Hty Hsev].
  split; [exact Hty|]. rewrite Hsev. vm_compute. reflexivity.
Defined.

End DetectorDemo.

(* ===================================================================== *)
(** * The state merge                                                     *)
(* ===================================================================== *)

Section MergeFacts.

(** Messages that all carry an id are left as they are. *)
Lemma assign_ids_id (uuid4 : nat -> string) (n : nat) (ms : list Message) :
  Forall has_id ms -> assign_ids uuid4 n ms = (ms, n).
Proof.
  induction 1 as [|m ms [i Hi] _ IH]; [done|].
  cbn [assign_ids]. by rewrite Hi, IH.
Qed.

(** A message without an id gets the next identifier. *)
Lemma assign_ids_one (uuid4 : nat -> string) (n : nat) (m : Message) :
  msg_id m = None ->
  assign_ids uuid4 n [m] = ([set_msg_id m (uuid4 n)], S n).
Proof. intros Hm. cbn [assign_ids]. by rewrite Hm. Qed.

Lemma index_by_id_absent (i : string) (ms : list Message) (pos : nat)
    (found : option nat) :
  Forall (fun m => msg_id m <> Some i) ms ->
  index_by_id i ms pos found = found.
Proof.
  intros Hall. revert pos found.
  induction Hall as [|m ms Hm _ IH]; intros pos found; [done|].
  cbn [index_by_id]. rewrite IH. by rewrite (bool_decide_eq_false_2 _ Hm).
Qed.

(** A message whose id is new is appended. *)
Lemma upsert_fresh (merged : list Message) (m : Message) (i : string) :
  msg_id m = Some i ->
  Forall (fun m' => msg_id m' <> Some i) merged ->
  upsert merged m = (merged ++ [m])%list.
Proof.
  intros Hm Hfresh. unfold upsert.
  by rewrite Hm, (index_by_id_absent i merged 0 None Hfresh).
Qed.

(** One new message, as every node returns it, lands at the end. *)
Lemma add_messages_one (uuid4 : nat -> string) (left : list Message)
    (m : Message) :
  Forall has_id left ->
  msg_id m = None ->
  Forall (fun m' => msg_id m' <> Some (uuid4 0%nat)) left ->
  add_messages uuid4 left [m] = (left ++ [set_msg_id m (uuid4 0%nat)])%list.
Proof.
  intros Hids Hm Hfresh. unfold add_messages.
  rewrite (assign_ids_id uuid4 0 left Hids), (assign_ids_one uuid4 0 m Hm).
  cbn [foldl]. by apply (upsert_fresh left _ (uuid4 0%nat)).
Qed.

(** After [assign_ids] every message carries an id. *)
Lemma assign_ids_has_id (uuid4 : nat -> string) (ms : list Message) :
  forall n, Forall has_id (assign_ids uuid4 n ms).1.
Proof.
  induction ms as [|m ms IH]; intros n; [constructor|].
  cbn [assign_ids]. destruct (msg_id m) as [i|] eqn:Hm.
  - specialize (IH n). destruct (assign_ids uuid4 n ms) as [r n'].
    constructor; [by exists i|exact IH].
  - specialize (IH (S n)). destruct (assign_ids uuid4 (S n) ms) as [r n'].
    constructor; [by eexists|exact IH].
Qed.

Lemma upsert_has_id (merged : list Message) (m : Message) :
  Forall has_id merged -> has_id m -> Forall has_id (upsert merged m).
Proof.
  intros Hmerged Hm. unfold upsert.
  destruct (msg_id m) as [i|]; [destruct (index_by_id i merged 0 None)|].
  - by apply Forall_insert.
  - apply Forall_app_2; [done|by constructor].
  - apply Forall_app_2; [done|by constructor].
Qed.

(** The hypothesis on ids is an invariant of the runtime: whatever
    [add_messages] returns carries ids throughout. *)
Lemma add_messages_has_id (uuid4 : nat -> string) (left right : list Message) :
  Forall has_id (add_messages uuid4 left right).
Proof.
  unfold add_messages.
  pose proof (assign_ids_has_id uuid4 left 0) as Hleft.
  destruct (assign_ids uuid4 0 left) as [left' n]. cbn [fst] in Hleft.
  pose proof (assign_ids_has_id uuid4 right n) as Hright.
  destruct (assign_ids uuid4 n right) as [right' n']. cbn [fst] in Hright.
  revert left' Hleft. induction Hright as [|m right' Hm _ IH];
    intros left' Hleft; [exact Hleft|].
  cbn [foldl]. apply IH. by apply upsert_has_id.
Qed.

(** A field reduced by [operator.add] keeps its old list in front, whatever
    the node returned for it. *)
Lemma append_with_prefix {A} (old : list A) (new : option (list A)) :
  old `prefix_of` append_with old new.
Proof.
  destruct new as [l|]; cbn.
  - by exists l.
  - exists []. by rewrite app_nil_r.
Qed.

End MergeFacts.

Section NodeFacts.
Context `{PyLib} `{NodeEnv}.

(** Every node returns exactly one message, and that message has no id. *)
Lemma node_update_message (n : node) (human_response : pyval)
    (s : EcoVerifyState) (d : Delta) :
  node_update n human_response s = Some d ->
  exists m, d_messages d = Some [m] /\ msg_id m = None.
Proof.
  destruct n; cbn [node_update].
  - intros [= <-]. by eexists.
  - unfold jurist_node. intros Hd.
    repeat case_match; simplify_option_eq; by eexists.
  - unfold architect_node. intros Hd.
    simplify_option_eq; by eexists.
  - unfold governor_node. intros Hd.
    destruct (governor_interrupt s); [|done]. cbn [mbind option_bind] in Hd.
    destruct (get_dict_or_none (simulation_result s)); [|done].
    cbn [mbind option_bind fmap option_fmap option_map] in Hd.
    destruct (py_truthy _).
    + injection Hd as <-. by eexists.
    + destruct (py_format _ _); [|done]. injection Hd as <-. by eexists.
  - unfold finalize_node. intros Hd.
    destruct (fhir_block s). simplify_option_eq; by eexists.
Qed.

End NodeFacts.

(** C8. Merging the update of any of the five nodes into the state it ran on
    leaves each field with a reducer ([messages], [decision_traces],
    [settlements], [risk_scores], [fhir_observations], [edutech_hints],
    [error_log], [ui_events]) a list that starts with the list the state held.
    For [messages], whose reducer keys on message ids, the messages of the
    state carry ids (the reducer gave them one when they were merged) and the
    identifier drawn for the new message is not among them. *)
Theorem append_fields_only_grow `{PyLib} `{NodeEnv} :
  forall (n : node) (human_response : pyval) (uuid4 : nat -> string)
         (s : EcoVerifyState) (d : Delta),
    node_update n human_response s = Some d ->
    Forall has_id (messages s) ->
    Forall (fun m => msg_id m <> Some (uuid4 0%nat)) (messages s) ->
    let s' := merge uuid4 s d in
    messages s `prefix_of` messages s'
    /\ decision_traces s `prefix_of` decision_traces s'
    /\ settlements s `prefix_of` settlements s'
    /\ risk_scores s `prefix_of` risk_scores s'
    /\ fhir_observations s `prefix_of` fhir_observations s'
    /\ edutech_hints s `prefix_of` edutech_hints s'
    /\ error_log s `prefix_of` error_log s'
    /\ ui_events s `prefix_of` ui_events s'.
Proof.
  intros n human_response uuid4 s d Hd Hids Hfresh s'.
  split; [|subst s'; cbn [merge decision_traces settlements risk_scores
                            fhir_observations edutech_hints error_log
                            ui_events];
           repeat split; apply append_with_prefix].
  destruct (node_update_message n human_response s d Hd) as (m & Hm & Hid).
  subst s'. cbn [merge messages]. rewrite Hm.
  rewrite add_messages_one by assumption.
  by eexists.
Qed.

Section AppendFieldsDemo.
Import Demo.

Lemma append_fields_only_grow_demo :
  node_update Architect PNone state_after_jurist
  = Some (default empty_delta (architect_node state_after_jurist))
  /\ Forall has_id (messages state_after_jurist)
  /\ Forall (fun m => msg_id m <> Some (demo_uuid4 2 0))
       (messages state_after_jurist)
  /\ messages state_after_jurist `prefix_of` messages state_after_architect
  /\ decision_traces state_after_jurist
       `prefix_of` decision_traces state_after_architect
  /\ ui_events state_after_jurist `prefix_of` ui_events state_after_architect.
Proof.
  assert (node_update Architect PNone state_after_jurist
          = Some (default empty_delta (architect_node state_after_jurist)))
    as Hd by (vm_compute; reflexivity).
  assert (Forall has_id (messages state_after_jurist)) as Hids.
  { vm_compute. repeat constructor; by eexists. }
  assert (Forall (fun m => msg_id m <> Some (demo_uuid4 2 0))
            (messages state_after_jurist)) as Hfresh.
  { vm_compute. repeat constructor; discriminate. }
  split; [exact Hd|]. split; [exact Hids|]. split; [exact Hfresh|].
  destruct (append_fields_only_grow Architect PNone (demo_uuid4 2)
              state_after_jurist _ Hd Hids Hfresh)
    as (Hm & Ht & _ & _ & _ & _ & _ & Hu).
  split; [exact Hm|]. split; [exact Ht|exact Hu].
Defined.

End AppendFieldsDemo.

(* ===================================================================== *)
(** * The proof-graph builder                                             *)
(* ===================================================================== *)

Lemma str_app_assoc (s1 s2 s3 : string) :
  (s1 ++ s2) ++ s3 = s1 ++ (s2 ++ s3).
Proof.
  induction s1 as [|c s1 IH]; [reflexivity|].
  change (String c ((s1 ++ s2) ++ s3) = String c (s1 ++ (s2 ++ s3))).
  by rewrite IH.
Qed.

Section MermaidFacts.
Context `{PyLib}.

(** The bracket pairs by role. *)
Lemma mermaid_shape_by_role :
  mermaid_shape (PStr "vanguard") = ("([", "])")
  /\ mermaid_shape (PStr "jurist") = ("[", "]")
  /\ mermaid_shape (PStr "architect") = ("[", "]")
  /\ mermaid_shape (PStr "governor") = ("{", "}").
Proof. repeat split. Qed.

Lemma mermaid_extra_drawable (d : pydict) :
  (forall v, d !! "monthly_savings" = Some v -> is_Some (py_format ",.0f" v)) ->
  is_Some (mermaid_extra d).
Proof.
  intros Hfmt. unfold mermaid_extra.
  destruct (d !! "monthly_savings") as [v|].
  - destruct (Hfmt v eq_refl) as [s ->]. by eexists.
  - repeat case_match; by eexists.
Qed.

(** A drawable trace yields its two lines: the node in the brackets of its
    agent, and the edge from the previous node labelled with the first eight
    characters of the trace's own hash. *)
Lemma mermaid_lines_of_trace (prev : string) (i : nat) (t : pydict) :
  drawable i t ->
  exists a text h,
    trace_agent i t = PStr a
    /\ dict_get t "payload_hash" (PStr EmptyString) = PStr h
    /\ mermaid_node_line i t
       = Some ("    " ++ mermaid_node_id i t ++ (mermaid_shape (PStr a)).1
               ++ dquote ++ text ++ dquote ++ (mermaid_shape (PStr a)).2)
    /\ mermaid_edge_line prev i t
       = Some (edge_text prev (str_take 8 h) (mermaid_node_id i t)).
Proof.
  intros ((a & Ha) & (d & Hd & Hfmt) & (h & Hh)).
  destruct (mermaid_extra_drawable d Hfmt) as [extra Hextra].
  exists a, (str_upper a ++ "\n" ++ py_str (dict_get d "action" (PStr "unknown"))
             ++ extra), h.
  split; [exact Ha|]. split; [exact Hh|]. split.
  - unfold mermaid_node_line. rewrite Ha, Hd. cbn [mbind option_bind].
    destruct (mermaid_shape (PStr a)) as [shape_open shape_close].
    cbn [mbind option_bind]. rewrite Hextra. cbn [mbind option_bind fst snd].
    f_equal. by rewrite !str_app_assoc.
  - unfold mermaid_edge_line, mermaid_sig_short. by rewrite Hh.
Qed.

(** Entering the loop body once shifts the bookkeeping by one trace. *)
Lemma prev_node_from_cons (start : string) (i : nat) (t : pydict)
    (rest : list pydict) (k : nat) :
  (k <= length rest)%nat ->
  prev_node_from start i (t :: rest) (S k)
  = prev_node_from (mermaid_node_id i t) (S i) rest k.
Proof.
  intros Hk. destruct k as [|j]; cbn [prev_node_from lookup list_lookup].
  - by rewrite Nat.add_0_r.
  - destruct (rest !! j) as [t'|] eqn:Hj.
    + by rewrite Nat.add_succ_r.
    + apply lookup_ge_None in Hj. lia.
Qed.

(** The loop over drawable traces: two lines per trace, in order. *)
Lemma mermaid_body_drawable (traces : list pydict) :
  forall (i : nat) (start : string),
    all_drawable i traces ->
    exists body,
      mermaid_body i start traces
      = Some (body, prev_node_from start i traces (length traces))
      /\ length body = (2 * length traces)%nat
      /\ forall k t, traces !! k = Some t ->
           exists a text h,
             trace_agent (i + k) t = PStr a
             /\ dict_get t "payload_hash" (PStr EmptyString) = PStr h
             /\ body !! (2 * k)%nat
                = Some ("    " ++ mermaid_node_id (i + k) t
                        ++ (mermaid_shape (PStr a)).1 ++ dquote ++ text
                        ++ dquote ++ (mermaid_shape (PStr a)).2)
             /\ body !! (2 * k + 1)%nat
                = Some (edge_text (prev_node_from start i traces k)
                          (str_take 8 h) (mermaid_node_id (i + k) t)).
Proof.
  induction traces as [|t rest IH]; intros i start Hall.
  - exists []. split; [reflexivity|]. split; [reflexivity|]. intros k t' Hk.
    by rewrite lookup_nil in Hk.
  - destruct Hall as [Ht Hrest].
    destruct (mermaid_lines_of_trace start i t Ht)
      as (a & text & h & Ha & Hh & Hnode & Hedge).
    destruct (IH (S i) (mermaid_node_id i t) Hrest)
      as (body & Hbody & Hlen & Hlines).
    eexists. split; [|split].
    + cbn [mermaid_body]. rewrite Hnode, Hedge. cbn [mbind option_bind].
      rewrite Hbody. cbn [mbind option_bind length].
      by rewrite prev_node_from_cons.
    + cbn [length]. lia.
    + intros [|k] t' Hk.
      * injection Hk as <-. exists a, text, h.
        rewrite Nat.add_0_r. by repeat split.
      * cbn in Hk. destruct (Hlines k t' Hk)
          as (a' & text' & h' & Ha' & Hh' & Hnode' & Hedge').
        exists a', text', h'.
        replace (i + S k)%nat with (S i + k)%nat by lia.
        split; [exact Ha'|]. split; [exact Hh'|]. split.
        -- replace (2 * S k)%nat with (S (S (2 * k))) by lia. exact Hnode'.
        -- replace (2 * S k + 1)%nat with (S (S (2 * k + 1))) by lia.
           rewrite prev_node_from_cons
             by (apply lookup_lt_Some in Hk; lia).
           exact Hedge'.
Qed.

End MermaidFacts.

Section ProofGraphCounterexample.
Import Demo.

(** C9, counterexample. Two traces, a vanguard one whose hash starts with
    [aaaaaaaa] and a governor one whose hash starts with [bbbbbbbb]: the edge
    that leaves the vanguard node carries [sig:bbbbbbbb], the hash of the
    trace it enters, not that of the trace it leaves; and the edge that leaves
    the governor node for END carries no label. *)
Lemma edge_label_is_target_hash :
  exists lines,
    mermaid_lines [trace_a; trace_b] [] = Some lines
    /\ (edge_text "vanguard_0" "bbbbbbbb" "governor_1" ∈ lines)
    /\ (edge_text "vanguard_0" "aaaaaaaa" "governor_1" ∉ lines)
    /\ (mermaid_end_line "governor_1" ∈ lines)
    /\ (forall label, edge_text "governor_1" label "END" ∉ lines).
Proof.
  eexists. split; [vm_compute; reflexivity|].
  split; [apply (bool_decide_unpack _); vm_compute; reflexivity|].
  split; [apply (bool_decide_unpack _); vm_compute; reflexivity|].
  split; [apply (bool_decide_unpack _); vm_compute; reflexivity|].
  intros label Hin%list_elem_of_In. vm_compute in Hin.
  repeat (destruct Hin as [Hin|Hin]; [by simplify_eq|]). exact Hin.
Qed.

End ProofGraphCounterexample.

(** C9, amended. For traces the builder can draw, the lines are: the
    [graph TD] header, the START node, then for each trace in order its node
    line and its edge line, then the edge from the last node to END, then the
    style lines. The node of a trace is set in the brackets of its agent
    (stadium for the vanguard, rhombus for the governor, rectangle for the
    jurist, the architect and any other agent). The edge of a trace runs from
    the previous node (START for the first trace) into the trace's node and
    is labelled [sig:] followed by the first eight characters of that trace's
    own [payload_hash]; the edge into END is not labelled. *)
Theorem proof_graph_structure `{PyLib} :
  forall (traces anomalies : list pydict),
    all_drawable 0 traces ->
    exists body,
      mermaid_lines traces anomalies
      = Some (["graph TD"; mermaid_start_line] ++ body
              ++ [mermaid_end_line
                    (mermaid_prev_node traces (length traces))]
              ++ mermaid_class_defs ++ mermaid_class_lines 0 traces)%list
      /\ length body = (2 * length traces)%nat
      /\ (forall i t, traces !! i = Some t ->
            exists a text h,
              trace_agent i t = PStr a
              /\ dict_get t "payload_hash" (PStr EmptyString) = PStr h
              /\ body !! (2 * i)%nat
                 = Some ("    " ++ mermaid_node_id i t
                         ++ (mermaid_shape (PStr a)).1 ++ dquote ++ text
                         ++ dquote ++ (mermaid_shape (PStr a)).2)
              /\ body !! (2 * i + 1)%nat
                 = Some (edge_text (mermaid_prev_node traces i)
                           (str_take 8 h) (mermaid_node_id i t)))
      /\ mermaid_shape (PStr "vanguard") = ("([", "])")
      /\ mermaid_shape (PStr "jurist") = ("[", "]")
      /\ mermaid_shape (PStr "architect") = ("[", "]")
      /\ mermaid_shape (PStr "governor") = ("{", "}").
Proof.
  intros traces anomalies Hall.
  destruct (mermaid_body_drawable traces 0 "START" Hall)
    as (body & Hbody & Hlen & Hlines).
  exists body. split; [|split; [exact Hlen|split; [exact Hlines|]]].
  - unfold mermaid_lines. rewrite Hbody. reflexivity.
  - apply mermaid_shape_by_role.
Qed.

Section ProofGraphDemo.
Import Demo.

Lemma demo_traces_drawable : all_drawable 0 [trace_a; trace_b].
Proof.
  repeat split.
  all: try (eexists; vm_compute; reflexivity).
  all: eexists; split; [vm_compute; reflexivity|];
    intros v Hv; vm_compute in Hv; discriminate.
Defined.

Lemma proof_graph_structure_demo :
  all_drawable 0 [trace_a; trace_b]
  /\ exists lines,
       mermaid_lines [trace_a; trace_b] [] = Some lines
       /\ lines !! 3%nat
          = Some (edge_text "START" "aaaaaaaa" "vanguard_0")
       /\ lines !! 5%nat
          = Some (edge_text "vanguard_0" "bbbbbbbb" "governor_1").
Proof.
  split; [exact demo_traces_drawable|].
  destruct (proof_graph_structure [trace_a; trace_b] [] demo_traces_drawable)
    as (body & Hlines & Hlen & Hbody & _).
  eexists. split; [exact Hlines|].
  destruct (Hbody 0%nat trace_a eq_refl) as (a0 & text0 & h0 & _ & Hh0 & _ & He0).
  destruct (Hbody 1%nat trace_b eq_refl) as (a1 & text1 & h1 & _ & Hh1 & _ & He1).
  assert (h0 = "aaaaaaaa11111111") as -> by (vm_compute in Hh0; congruence).
  assert (h1 = "bbbbbbbb22222222") as -> by (vm_compute in Hh1; congruence).
  split.
  - change ((["graph TD"; mermaid_start_line] ++ body ++ _)%list !! 3%nat)
      with ((body ++ [mermaid_end_line
                        (mermaid_prev_node [trace_a; trace_b] 2)]
             ++ mermaid_class_defs
             ++ mermaid_class_lines 0 [trace_a; trace_b])%list !! 1%nat).
    rewrite lookup_app_l by (rewrite Hlen; cbn; lia).
    exact He0.
  - change ((["graph TD"; mermaid_start_line] ++ body ++ _)%list !! 5%nat)
      with ((body ++ [mermaid_end_line
                        (mermaid_prev_node [trace_a; trace_b] 2)]
             ++ mermaid_class_defs
             ++ mermaid_class_lines 0 [trace_a; trace_b])%list !! 3%nat).
    rewrite lookup_app_l by (rewrite Hlen; cbn; lia).
    exact He1.
Defined.

End ProofGraphDemo.

(** C10. The diagram is a function of the decision traces alone: two calls
    with the same traces and any two anomalies lists return the same text (or
    raise alike). *)
Theorem proof_graph_ignores_anomalies `{PyLib} :
  forall (traces anomalies anomalies' : list pydict),
    _build_mermaid_graph traces anomalies
    = _build_mermaid_graph traces anomalies'.
Proof. intros traces anomalies anomalies'. reflexivity. Qed.

(** The Finalizer puts the diagram of the state's traces in its first event;
    it returns no trace of its own. *)
Lemma finalize_proof_graph `{PyLib} `{NodeEnv} (s : EcoVerifyState)
    (d : Delta) :
  finalize_node s = Some d ->
  exists text rest,
    _build_mermaid_graph (decision_traces s) (get_list (anomalies s))
    = Some text
    /\ d_ui_events d
       = Some (mkdict [("type", PStr "proof_graph"); ("mermaid", PStr text);
                       ("timestamp", PStr (clock 0))] :: rest)
    /\ d_current_phase d = Some "complete"
    /\ d_decision_traces d = None.
Proof.
  unfold finalize_node. destruct (fhir_block s) as [audit observations].
  destruct (_build_mermaid_graph _ _) as [text|]; [|done].
  intros Hd. simplify_option_eq. by eexists _, _.
Qed.

(* ===================================================================== *)
(** * The model on known values                                           *)
(* ===================================================================== *)

Section KnownValues.
Import Demo.

(** Split a conjunction of closed equations and evaluate each side. *)
Ltac evaluate_each :=
  repeat match goal with |- _ /\ _ => split end; vm_compute; reflexivity.

(** [round] as Python computes it: ties go to the even neighbour of the
    exact binary value. [0x1.5666666666666p+1] is the float [2.675], which
    lies below the decimal 2.675, and [0x1.55c28f5c28f5cp+1] is [2.67];
    [0x1.40a3d70a3d70cp+4] is [20.040000000000006];
    [-0x1.999999999999ap-3] is [-0.2]. *)
Example py_round_known :
  PyNum.py_round 0 0.5 = 0%float
  /\ PyNum.py_round 0 1.5 = 2%float
  /\ PyNum.py_round 0 2.5 = 2%float
  /\ PyNum.py_round 2 0x1.5666666666666p+1 = 0x1.55c28f5c28f5cp+1%float
  /\ PyNum.py_round 1 0x1.40a3d70a3d70cp+4 = 20%float
  /\ PyNum.py_round 1 (-0.25) = (-0x1.999999999999ap-3)%float.
Proof. evaluate_each. Qed.

(** Severity on both sides of the energy threshold: a peak of 120.04
    ([0x1.e028f5c28f5c3p+6]) over an average of 100 gives 20.04%, which is
    rounded to 20.0 and stays [medium]; a peak of 120.06
    ([0x1.e03d70a3d70a4p+6]) gives 20.06%, rounded to 20.1, and is [high]. *)
Example severity_known :
  severity_of (pct_above 0x1.e028f5c28f5c3p+6 100) 20 = "medium"
  /\ severity_of (pct_above 0x1.e03d70a3d70a4p+6 100) 20 = "high"
  /\ severity_of (pct_above 150 100) 20 = "high"
  /\ severity_of (pct_above 125 100) 25 = "medium".
Proof. evaluate_each. Qed.

(** The base-64 codec on the bytes of ["ABCD"]. *)
Example base64_known :
  Base64.b64encode [Byte.x41; Byte.x42; Byte.x43; Byte.x44] = "QUJDRA=="
  /\ Base64.b64decode "QUJDRA==" = Some [Byte.x41; Byte.x42; Byte.x43; Byte.x44]
  /\ Base64.b64decode "QUJD RA==" = Some [Byte.x41; Byte.x42; Byte.x43; Byte.x44]
  /\ Base64.b64decode "QUJDRA" = None
  /\ Base64.b64decode "QUJDR" = None.
Proof. evaluate_each. Qed.

(** [tests/test_nhi.py]: a signed trace verifies; a changed decision, a
    flipped signature character and a foreign key are rejected. *)
Example test_decision_signing :
  verify_decision_trace demo_trace (derive_public demo_key) = true
  /\ verify_decision_trace
       (set_decision demo_trace (mkdict [("action", PStr "tampered")]))
       (derive_public demo_key) = false
  /\ verify_decision_trace
       (set_signature demo_trace (flip_char 5 (signature demo_trace)))
       (derive_public demo_key) = false
  /\ verify_decision_trace demo_trace (derive_public (utf8_encode "agent_2"))
     = false.
Proof. evaluate_each. Qed.

(** [tests/test_nhi.py], [test_verify_citations_present]. *)
Example test_verify_citations_present :
  verify_citations_present
    [cite_data_source "2026-01-01T00:00:00+00:00" "src"
       (PDict (mkdict [("data", PBool true)])) EmptyString] = true
  /\ verify_citations_present [] = false.
Proof. evaluate_each. Qed.

(** [tests/test_graph.py], [TestEdgeRouting]. *)
Example test_edge_routing :
  route_after_vanguard
    (merge (demo_uuid4 0) _empty_state (vanguard_node _empty_state))
  = "jurist"
  /\ route_after_vanguard _empty_state = "__end__"
  /\ route_after_jurist (routing_state "citation_failure" 1 None)
     = Some "vanguard"
  /\ route_after_jurist (routing_state "citation_failure" 5 None)
     = Some "__end__"
  /\ route_after_jurist
       (routing_state "jurist_complete" 0
          (Some (mkdict [("status", PStr "compliant")])))
     = Some "architect"
  /\ route_after_jurist
       (routing_state "jurist_complete" 0
          (Some (mkdict [("status", PStr "non_compliant")])))
     = Some "governor".
Proof. evaluate_each. Qed.

(** Outside its domain the router raises: a completed phase with the report
    still [None]. *)
Example route_after_jurist_without_report :
  route_after_jurist (routing_state "jurist_complete" 0 None) = None.
Proof. reflexivity. Qed.

(** [tests/test_graph.py], [test_citation_failure_triggers_self_correction]. *)
Example test_citation_failure :
  (d_current_phase <$> jurist_node _empty_state)
  = Some (Some "citation_failure")
  /\ (d_error_log <$> jurist_node _empty_state)
     = Some (Some ["JURIST: Cite-Before-Act violation — no valid citations from VANGUARD."]).
Proof. evaluate_each. Qed.

(** [tests/test_graph.py], [test_finalize_generates_mermaid]: the diagram of
    the two test traces. *)
Example test_mermaid :
  mermaid_lines test_traces [mkdict [("type", PStr "energy_spike")]]
  = Some
      ["graph TD";
       mermaid_start_line;
       "    vanguard_0([" ++ dquote ++ "VANGUARD\nscan\n1 anomalie(s)"
         ++ dquote ++ "])";
       edge_text "START" "abc123ef" "vanguard_0";
       "    jurist_1[" ++ dquote ++ "JURIST\ncompliance\ncompliant" ++ dquote
         ++ "]";
       edge_text "vanguard_0" "def456ab" "jurist_1";
       mermaid_end_line "jurist_1";
       EmptyString;
       "    classDef vanguard fill:#1e40af,stroke:#3b82f6,color:#fff";
       "    classDef jurist fill:#6b21a8,stroke:#a855f7,color:#fff";
       "    classDef architect fill:#065f46,stroke:#10b981,color:#fff";
       "    classDef governor fill:#92400e,stroke:#f59e0b,color:#fff";
       "    class vanguard_0 vanguard";
       "    class jurist_1 jurist"].
Proof. vm_compute. reflexivity. Qed.

End KnownValues.
